(** * The Celery autoscaler of [gemini_fastapi/scaler.py]

    A shallow embedding of [ScalingConfig] and [CeleryScaler]: the scaling
    policy ([should_scale], the desired-worker expression of
    [scale_workers]), the worker life cycle ([scale_up], [scale_down],
    [cleanup]) and one iteration of the control loop ([run]).

    Integers are [Z]; [datetime] values are microseconds on a [Z] clock;
    Python floats are IEEE binary64 values ([spec_float], precision 53,
    [emax] 1024); the [worker_processes] dict is an association list in
    insertion order whose values are references into a table of [Popen]
    objects; exceptions and the state of the scaler are threaded by a small
    state-and-exception monad. *)

From Stdlib Require Import ZArith Lia Bool String Ascii.
From Stdlib Require Import Floats.SpecFloat.
From stdpp Require Import base list.

Local Open Scope Z_scope.

(* ===================================================================== *)
(** ** Python numbers *)

Module PyFloat.

Definition prec : Z := 53.
Definition emax : Z := 1024.

(** The literal [0.2]: the binary64 value nearest to 1/5, which is
    7205759403792794 * 2^-55 (bit pattern 0x3FC999999999999A). *)
Definition lit_0_2 : spec_float := S754_finite false 7205759403792794 (-55).
(** [0.8] is 0x3FE999999999999A and [0.3] is 0x3FD3333333333333. *)
Definition lit_0_8 : spec_float := S754_finite false 7205759403792794 (-53).
Definition lit_0_3 : spec_float := S754_finite false 5404319552844595 (-54).

(** [float(n)] for a Python int: round to nearest, ties to even; an int
    too large for a double gives [None] (Python raises OverflowError). *)
Definition of_int (n : Z) : option spec_float :=
  match binary_normalize prec emax n 0 false with
  | S754_infinity _ => None
  | S754_nan => None
  | f => Some f
  end.

Definition mul (x y : spec_float) : spec_float := SFmul prec emax x y.

(** [int(f)]: truncation toward zero; [None] on an infinity or a NaN
    (Python raises OverflowError, respectively ValueError). *)
Definition to_int (f : spec_float) : option Z :=
  match f with
  | S754_zero _ => Some 0
  | S754_finite s m e =>
      let a := match e with
               | Zneg k => Z.shiftr (Zpos m) (Zpos k)
               | _ => Z.shiftl (Zpos m) e
               end in
      Some (if s then - a else a)
  | _ => None
  end.

(** [int(n * f)] for an int [n] and a float [f]: the int operand is
    converted first, the product is rounded once, then truncated. *)
Definition int_of_int_times (n : Z) (f : spec_float) : option Z :=
  match of_int n with
  | Some x => to_int (mul x f)
  | None => None
  end.

End PyFloat.

(* ===================================================================== *)
(** ** Configuration: the dataclass [ScalingConfig] *)

Record ScalingConfig : Type := mkConfig {
  min_workers : Z;
  max_workers : Z;
  tasks_per_worker : Z;
  check_interval : Z;               (* seconds *)
  scale_up_threshold : spec_float;
  scale_down_threshold : spec_float;
  cooldown_period : Z;              (* seconds *)
  worker_startup_time : Z;          (* seconds *)
  worker_prefix : string
}.

(** The field defaults of the dataclass. *)
Definition default_config : ScalingConfig :=
  {| min_workers := 3;
     max_workers := 50;
     tasks_per_worker := 1;
     check_interval := 10;
     scale_up_threshold := PyFloat.lit_0_8;
     scale_down_threshold := PyFloat.lit_0_3;
     cooldown_period := 60;
     worker_startup_time := 30;
     worker_prefix := "celery_worker" |}.

(* ===================================================================== *)
(** ** Exceptions, processes, events *)

(** Subclasses of Python's [Exception] that the scaler can meet. *)
Inductive PyException : Type :=
| RedisError
| TimeoutExpired
| ZeroDivisionError
| OverflowError
| ValueError
| KeyError (key : string)
| PermissionError
| OSError
| RuntimeError.

(** What a [raise] carries: an [Exception], or the [SystemExit] of
    [exit(0)], which [except Exception] does not catch. *)
Inductive Raised : Type :=
| Exc (e : PyException)
| SystemExit (code : Z).

Inductive Signal : Type := SIGTERM | SIGKILL.

(** The life of a child process as its [Popen] object sees it.
    [Dying t c]: the process ends at clock time [t] with return code [c]
    and has not been reaped ([returncode] is still [None]).
    [Reaped c]: [poll]/[wait] has collected the exit, [returncode = c]. *)
Inductive PState : Type :=
| Alive
| Dying (t : Z) (code : Z)
| Reaped (code : Z).

Record Popen : Type := mkPopen {
  pstate : PState;
  (** microseconds the worker needs to shut down after SIGTERM;
      [None] when it ignores the signal *)
  sigterm_delay : option N;
  (** microseconds between the delivery of SIGKILL and the end of the
      process: [os.kill] returns before the process is gone *)
  sigkill_delay : N;
  (** [os.kill] on this process raises PermissionError *)
  os_denied : bool
}.

(** The same process in another state. *)
Definition with_pstate (s : PState) (p : Popen) : Popen :=
  mkPopen s (sigterm_delay p) (sigkill_delay p) (os_denied p).

Inductive Method : Type := MTerminate | MWait (timeout : Z) | MKill.

Inductive LogMsg : Type :=
| LogStarting
| LogStatus (queue workers : Z)
| LogScalingUp (count : Z)
| LogScalingDown (count : Z)
| LogBelowMinimum (workers minimum : Z)
| LogCleaningUp
| LogReceivedSignal (signum : Z)
| LogRedisError
| LogUnexpectedQueueError (e : PyException)
| LogActiveWorkersFailed (e : PyException)
| LogScaleUpFailed (e : PyException)
| LogScaleDownFailed (e : PyException)
| LogMainLoopError (e : PyException).

(** Observable actions, in the order they happen. *)
Inductive Event : Type :=
| ELog (m : LogMsg)
| ESpawn (name : string) (pid : nat)          (* subprocess.Popen(...) succeeded *)
| ECall (pid : nat) (m : Method)              (* a method call on a Popen object *)
| EKill (pid : nat) (s : Signal)              (* os.kill really delivered *)
| EDel (name : string)                        (* del worker_processes[name] done *)
| EAcquire
| ERelease
| ESleep (secs : Z).

(** The outside world, asked once per interaction; [n] is the number of
    interactions so far. *)
Inductive LlenResult : Type := LlenOk (n : Z) | LlenRaises (e : PyException).
Inductive InspectResult : Type :=
| InspectActive (n : nat)        (* a dict with [n] entries *)
| InspectNone
| InspectRaises (e : PyException).
Inductive SpawnResult : Type :=
| SpawnOk (delay : option N) (kill_delay : N) (denied : bool)
| SpawnRaises (e : PyException).

Record Env : Type := mkEnv {
  hostname : string;
  uuid4 : nat -> string;
  llen : nat -> string -> LlenResult;
  inspect_active : nat -> InspectResult;
  popen : nat -> SpawnResult
}.

(** The scaler object together with the process table and the clock. *)
Record World : Type := mkWorld {
  last_scale_time : Z;                        (* microseconds *)
  running : bool;
  worker_processes : list (string * nat);     (* name -> reference, insertion order *)
  lock : bool;                                (* [self.lock] is held *)
  clock : Z;                                  (* microseconds *)
  procs : list Popen;                         (* Popen objects, by reference *)
  queries : nat;
  trace : list Event
}.

Definition set_last_scale_time (t : Z) (w : World) : World :=
  mkWorld t (running w) (worker_processes w) (lock w) (clock w) (procs w) (queries w) (trace w).
Definition set_running (b : bool) (w : World) : World :=
  mkWorld (last_scale_time w) b (worker_processes w) (lock w) (clock w) (procs w) (queries w) (trace w).
Definition set_worker_processes (d : list (string * nat)) (w : World) : World :=
  mkWorld (last_scale_time w) (running w) d (lock w) (clock w) (procs w) (queries w) (trace w).
Definition set_lock (b : bool) (w : World) : World :=
  mkWorld (last_scale_time w) (running w) (worker_processes w) b (clock w) (procs w) (queries w) (trace w).
Definition set_clock (t : Z) (w : World) : World :=
  mkWorld (last_scale_time w) (running w) (worker_processes w) (lock w) t (procs w) (queries w) (trace w).
Definition set_procs (ps : list Popen) (w : World) : World :=
  mkWorld (last_scale_time w) (running w) (worker_processes w) (lock w) (clock w) ps (queries w) (trace w).
Definition next_query (w : World) : World :=
  mkWorld (last_scale_time w) (running w) (worker_processes w) (lock w) (clock w) (procs w) (S (queries w)) (trace w).
Definition emit (e : Event) (w : World) : World :=
  mkWorld (last_scale_time w) (running w) (worker_processes w) (lock w) (clock w) (procs w) (queries w) (trace w ++ [e]).

(* ===================================================================== *)
(** ** The monad: state, exceptions, and blocking on the lock *)

Inductive Outcome (A : Type) : Type :=
| Ret (a : A)
| Raise (r : Raised)
| Hang.                                       (* blocked for ever on [self.lock] *)
Arguments Ret {A} a.
Arguments Raise {A} r.
Arguments Hang {A}.

Definition M (A : Type) : Type := World -> Outcome A * World.

Definition ret {A} (a : A) : M A := fun w => (Ret a, w).

Definition bind {A B} (m : M A) (k : A -> M B) : M B :=
  fun w => match m w with
           | (Ret a, w') => k a w'
           | (Raise r, w') => (Raise r, w')
           | (Hang, w') => (Hang, w')
           end.

Definition raise {A} (e : PyException) : M A := fun w => (Raise (Exc e), w).

Declare Scope py_scope.
Delimit Scope py_scope with py.
Notation "x <- m ;; k" := (bind m (fun x => k))
  (at level 100, m at next level, right associativity) : py_scope.
Notation "m ;; k" := (bind m (fun _ => k))
  (at level 100, right associativity) : py_scope.
Local Open Scope py_scope.

(** [try: body except ...: handler].  The handler table answers [None]
    for an exception that no [except] clause of the statement matches. *)
Definition try_except {A} (body : M A) (handler : PyException -> option (M A)) : M A :=
  fun w => match body w with
           | (Raise (Exc e), w') =>
               match handler e with
               | Some h => h w'
               | None => (Raise (Exc e), w')
               end
           | r => r
           end.

(** [with self.lock: body] on a [threading.Lock]: not re-entrant, released
    on every exit from the body. *)
Definition with_lock {A} (body : M A) : M A :=
  fun w => if lock w then (Hang, w)
           else match body (emit EAcquire (set_lock true w)) with
                | (Hang, w') => (Hang, w')
                | (o, w') => (o, emit ERelease (set_lock false w'))
                end.

Definition gets {A} (f : World -> A) : M A := fun w => (Ret (f w), w).
Definition modify (f : World -> World) : M unit := fun w => (Ret tt, f w).
Definition log (m : LogMsg) : M unit := modify (emit (ELog m)).

Fixpoint for_each {A} (l : list A) (body : A -> M unit) : M unit :=
  match l with
  | [] => ret tt
  | x :: l' => body x ;; for_each l' body
  end.

(** [datetime.now()] and [time.sleep]. *)
Definition usec : Z := 1000000.
Definition now : M Z := gets clock.
Definition sleep (secs : Z) : M unit :=
  if secs <? 0 then raise ValueError
  else modify (fun w => emit (ESleep secs) (set_clock (clock w + secs * usec) w)).

(** [a // b]. *)
Definition floordiv (a b : Z) : M Z :=
  if b =? 0 then raise ZeroDivisionError else ret (a / b).

(** [timedelta.seconds]: a timedelta is normalised to days, seconds in
    [0, 86400) and microseconds in [0, 10^6). *)
Definition day_usec : Z := 86400 * usec.
Definition timedelta_seconds (delta : Z) : Z := (delta mod day_usec) / usec.
Definition timedelta_days (delta : Z) : Z := delta / day_usec.

(* ===================================================================== *)
(** ** The dict [worker_processes] *)

Definition Dict : Type := list (string * nat).

Fixpoint dict_get (k : string) (d : Dict) : option nat :=
  match d with
  | [] => None
  | (k', v) :: d' => if String.eqb k k' then Some v else dict_get k d'
  end.

(** [d[k] = v]: an existing key keeps its place, a new key goes last. *)
Fixpoint dict_set (k : string) (v : nat) (d : Dict) : Dict :=
  match d with
  | [] => [(k, v)]
  | (k', v') :: d' =>
      if String.eqb k k' then (k, v) :: d' else (k', v') :: dict_set k v d'
  end.

(** [del d[k]]; [None] stands for the KeyError of a missing key. *)
Fixpoint dict_del (k : string) (d : Dict) : option Dict :=
  match d with
  | [] => None
  | (k', v') :: d' =>
      if String.eqb k k' then Some d'
      else match dict_del k d' with
           | Some r => Some ((k', v') :: r)
           | None => None
           end
  end.

(** The slice [l[:count]], also for a negative [count]. *)
Definition slice_to {A} (count : Z) (l : list A) : list A :=
  if 0 <=? count then take (Z.to_nat count) l
  else take (Z.to_nat (Z.of_nat (length l) + count)) l.

(* ===================================================================== *)
(** ** [subprocess.Popen] objects *)

(** [poll()]: collect the exit of a process that has ended. *)
Definition poll (t : Z) (p : Popen) : Popen :=
  match pstate p with
  | Dying t' c => if t' <=? t then with_pstate (Reaped c) p else p
  | _ => p
  end.

(** The effect of a delivered signal on the process.  SIGTERM starts the
    shutdown of a worker that handles it and is lost on one that ignores
    it.  SIGKILL cannot be caught, but the process is not gone the moment
    [os.kill] returns: it ends [sigkill_delay] later, unless an exit that
    is under way already comes first. *)
Definition deliver (t : Z) (s : Signal) (p : Popen) : Popen :=
  match s, pstate p with
  | _, Reaped _ => p
  | SIGKILL, Alive => with_pstate (Dying (t + Z.of_N (sigkill_delay p)) (-9)) p
  | SIGKILL, Dying t' c =>
      if t' <=? t + Z.of_N (sigkill_delay p) then p
      else with_pstate (Dying (t + Z.of_N (sigkill_delay p)) (-9)) p
  | SIGTERM, Alive =>
      match sigterm_delay p with
      | Some d => with_pstate (Dying (t + Z.of_N d) (-15)) p
      | None => p
      end
  | SIGTERM, Dying _ _ => p
  end.

(** The process has ended by clock time [t]. *)
Definition gone (t : Z) (p : Popen) : bool :=
  match pstate p with
  | Alive => false
  | Dying t' _ => t' <=? t
  | Reaped _ => true
  end.

Definition set_proc (pid : nat) (p : Popen) (w : World) : World :=
  set_procs (<[pid := p]> (procs w)) w.

(** [Popen.send_signal]: polls first and sends nothing to a process that
    has already ended.  A reference outside the table does not occur for
    a handle made by [Popen_new]; it is answered by RuntimeError. *)
Definition send_signal (pid : nat) (s : Signal) : M unit :=
  fun w =>
    match procs w !! pid with
    | None => (Raise (Exc RuntimeError), w)
    | Some p =>
        let p1 := poll (clock w) p in
        let w1 := set_proc pid p1 w in
        match pstate p1 with
        | Reaped _ => (Ret tt, w1)
        | _ =>
            if os_denied p1 then (Raise (Exc PermissionError), w1)
            else (Ret tt, emit (EKill pid s) (set_proc pid (deliver (clock w) s p1) w1))
        end
    end.

Definition terminate (pid : nat) : M unit :=
  modify (emit (ECall pid MTerminate)) ;; send_signal pid SIGTERM.

Definition kill (pid : nat) : M unit :=
  modify (emit (ECall pid MKill)) ;; send_signal pid SIGKILL.

(** [Popen.wait(timeout)]: returns the return code as soon as the process
    has ended, raises TimeoutExpired after [timeout] seconds otherwise. *)
Definition wait_for (pid : nat) (timeout : Z) : M Z :=
  fun w =>
    match procs w !! pid with
    | None => (Raise (Exc RuntimeError), w)
    | Some p =>
        match pstate p with
        | Reaped c => (Ret c, w)
        | Dying t c =>
            if t <=? clock w + timeout * usec
            then (Ret c, set_clock (Z.max (clock w) t)
                           (set_proc pid (with_pstate (Reaped c) p) w))
            else (Raise (Exc TimeoutExpired), set_clock (clock w + timeout * usec) w)
        | Alive => (Raise (Exc TimeoutExpired), set_clock (clock w + timeout * usec) w)
        end
    end.

Definition wait (pid : nat) (timeout : Z) : M Z :=
  modify (emit (ECall pid (MWait timeout))) ;; wait_for pid timeout.

(* ===================================================================== *)
(** ** [CeleryScaler] *)

Section CeleryScaler.

Variable env : Env.
Variable config : ScalingConfig.

(** [subprocess.Popen([...])]: a new object with the next free
    reference, or the exception of a failed launch. *)
Definition Popen_new (worker_name : string) : M nat :=
  fun w =>
    match popen env (queries w) with
    | SpawnRaises e => (Raise (Exc e), next_query w)
    | SpawnOk d kill_delay denied =>
        let pid := length (procs w) in
        (Ret pid,
         emit (ESpawn worker_name pid)
           (next_query (set_procs (procs w ++ [mkPopen Alive d kill_delay denied]) w)))
    end.

(** [__init__]: the state tracking part. *)
Definition init (t : Z) : World :=
  {| last_scale_time := t - cooldown_period config * usec;
     running := false;
     worker_processes := [];
     lock := false;
     clock := t;
     procs := [];
     queries := 0;
     trace := [] |}.

Definition generate_worker_name : M string :=
  fun w =>
    let unique_id := substring 0 8 (uuid4 env (queries w)) in
    (Ret (worker_prefix config ++ "_" ++ hostname env ++ "_" ++ unique_id)%string,
     next_query w).

Definition redis_llen (queue_name : string) : M Z :=
  fun w =>
    match llen env (queries w) queue_name with
    | LlenOk n => (Ret n, next_query w)
    | LlenRaises e => (Raise (Exc e), next_query w)
    end.

Definition get_queue_length (queue_name : string) : M Z :=
  try_except
    (redis_llen queue_name)
    (fun e => match e with
              | RedisError => Some (log LogRedisError ;; ret 0)
              | _ => Some (log (LogUnexpectedQueueError e) ;; ret 0)
              end).

Definition len_worker_processes : M Z :=
  gets (fun w => Z.of_nat (length (worker_processes w))).

Definition inspect_active_call : M (option nat) :=
  fun w =>
    match inspect_active env (queries w) with
    | InspectActive n => (Ret (Some n), next_query w)
    | InspectNone => (Ret None, next_query w)
    | InspectRaises e => (Raise (Exc e), next_query w)
    end.

Definition get_active_workers : M Z :=
  try_except
    (active_workers <- inspect_active_call ;;
     match active_workers with
     | None => len_worker_processes
     | Some n => ret (Z.of_nat n)
     end)
    (fun e => Some (log (LogActiveWorkersFailed e) ;; len_worker_processes)).

(** [int(current_workers * 0.2)]. *)
Definition int_times_0_2 (current_workers : Z) : M Z :=
  match PyFloat.int_of_int_times current_workers PyFloat.lit_0_2 with
  | Some v => ret v
  | None => raise OverflowError
  end.

Definition should_scale (desired_workers current_workers : Z) : M bool :=
  t <- now ;;
  last <- gets last_scale_time ;;
  if timedelta_seconds (t - last) <? cooldown_period config then ret false
  else
    let worker_difference := Z.abs (desired_workers - current_workers) in
    fifth <- int_times_0_2 current_workers ;;
    ret (Z.max 2 fifth <=? worker_difference).

(** The expression bound to [desired_workers] in [scale_workers]. *)
Definition desired_workers (queue_length : Z) : M Z :=
  q <- floordiv queue_length (tasks_per_worker config) ;;
  ret (Z.max (min_workers config) (Z.min (max_workers config) (q + 1))).

Definition dict_store (worker_name : string) (process : nat) : M unit :=
  modify (fun w => set_worker_processes (dict_set worker_name process (worker_processes w)) w).

Definition dict_delete (worker_name : string) : M unit :=
  fun w =>
    match dict_del worker_name (worker_processes w) with
    | Some d => (Ret tt, emit (EDel worker_name) (set_worker_processes d w))
    | None => (Raise (Exc (KeyError worker_name)), w)
    end.

(** The body of [for _ in range(count)] in [scale_up], [n] times. *)
Fixpoint spawn_workers (n : nat) : M unit :=
  match n with
  | O => ret tt
  | S k =>
      worker_name <- generate_worker_name ;;
      process <- Popen_new worker_name ;;
      dict_store worker_name process ;;
      spawn_workers k
  end.

Definition scale_up (count : Z) : M unit :=
  log (LogScalingUp count) ;;
  try_except
    (spawn_workers (Z.to_nat count) ;;
     t <- now ;;
     modify (set_last_scale_time t) ;;
     secs <- floordiv (worker_startup_time config) count ;;
     sleep (Z.min 2 secs))
    (fun e => Some (log (LogScaleUpFailed e))).

(** The body of the loop of [scale_down], for one worker. *)
Definition terminate_one (worker : string * nat) : M unit :=
  let '(worker_name, process) := worker in
  terminate process ;;
  try_except
    (wait process 5 ;; ret tt)
    (fun e => match e with
              | TimeoutExpired => Some (kill process)
              | _ => None
              end) ;;
  dict_delete worker_name.

Definition scale_down (count : Z) : M unit :=
  log (LogScalingDown count) ;;
  try_except
    (items <- gets worker_processes ;;
     let workers_to_remove := slice_to count items in
     for_each workers_to_remove terminate_one ;;
     t <- now ;;
     modify (set_last_scale_time t))
    (fun e => Some (log (LogScaleDownFailed e))).

Definition scale_workers (queue_length : Z) : M unit :=
  with_lock
    (current_workers <- get_active_workers ;;
     desired <- desired_workers queue_length ;;
     go <- should_scale desired current_workers ;;
     if negb go then ret tt
     else if current_workers <? desired then scale_up (desired - current_workers)
     else if desired <? current_workers then scale_down (current_workers - desired)
     else ret tt).

(** The body of the loop of [cleanup], for one worker. *)
Definition cleanup_one (worker : string * nat) : M unit :=
  let '(_, process) := worker in
  try_except
    (terminate process ;; wait process 5 ;; ret tt)
    (fun _ => Some (kill process)).

Definition cleanup : M unit :=
  log LogCleaningUp ;;
  modify (set_running false) ;;
  items <- gets worker_processes ;;
  for_each items cleanup_one.

(** [handle_sigterm]: [exit(0)] raises SystemExit. *)
Definition handle_sigterm (signum : Z) : M unit :=
  log (LogReceivedSignal signum) ;;
  cleanup ;;
  (fun w => (Raise (SystemExit 0), w)).

(** One iteration of [while self.running] in [run]. *)
Definition run_iteration : M unit :=
  try_except
    (queue_length <- get_queue_length "celery" ;;
     current_workers <- get_active_workers ;;
     log (LogStatus queue_length current_workers) ;;
     scale_workers queue_length ;;
     if current_workers <? min_workers config
     then log (LogBelowMinimum current_workers (min_workers config)) ;;
          scale_up (min_workers config - current_workers)
     else ret tt)
    (fun e => Some (log (LogMainLoopError e))) ;;
  sleep (check_interval config).



End CeleryScaler.

(* ===================================================================== *)
(** ** The policy as the specification words it *)

(** [clamp(x, lo, hi)]. *)
Definition clamp (x lo hi : Z) : Z :=
  if x <? lo then lo else if hi <? x then hi else x.

(** [ceil(a / b)] for a positive [b]. *)
Definition ceil_div (a b : Z) : Z := - ((- a) / b).

(** [clamp(ceil(queueLength / tasksPerWorker) + 1, min, max)]. *)
Definition spec_desiredWorkers (queueLength tasksPerWorker lo hi : Z) : Z :=
  clamp (ceil_div queueLength tasksPerWorker + 1) lo hi.

(** [round(current * 0.2)]: the integer nearest to [current / 5]; a fifth
    of an integer is never half way between two integers. *)
Definition spec_round_fifth (current : Z) : Z := (2 * current + 5) / 10.

(** [max(2, round(current * 0.2))]. *)
Definition spec_deadband (current : Z) : Z := Z.max 2 (spec_round_fifth current).

(* ===================================================================== *)
(** ** Auxiliary definitions for the statements *)

(** Worker counts for which the float product was checked exhaustively. *)
Definition checked_counts : Z := 65536.

Fixpoint all_from (n : nat) (c : Z) (P : Z -> bool) : bool :=
  match n with
  | O => true
  | S k => P c && all_from k (c + 1) P
  end.

Definition fifth_is_floor (c : Z) : bool :=
  match PyFloat.int_of_int_times c PyFloat.lit_0_2 with
  | Some v => v =? c / 5
  | None => false
  end.

(** Two configurations that differ at most in the two threshold fields. *)
Definition same_but_thresholds (c1 c2 : ScalingConfig) : Prop :=
  min_workers c1 = min_workers c2 /\
  max_workers c1 = max_workers c2 /\
  tasks_per_worker c1 = tasks_per_worker c2 /\
  check_interval c1 = check_interval c2 /\
  cooldown_period c1 = cooldown_period c2 /\
  worker_startup_time c1 = worker_startup_time c2 /\
  worker_prefix c1 = worker_prefix c2.

Definition with_thresholds (up down : spec_float) (c : ScalingConfig) : ScalingConfig :=
  mkConfig (min_workers c) (max_workers c) (tasks_per_worker c) (check_interval c)
    up down (cooldown_period c) (worker_startup_time c) (worker_prefix c).

(** The defaults with two tasks per worker. *)
Definition config_two_tasks : ScalingConfig :=
  mkConfig 3 50 2 10 PyFloat.lit_0_8 PyFloat.lit_0_3 60 30 "celery_worker".

(** A scaler just constructed at clock 0 with the default configuration:
    its cooldown has elapsed. *)
Definition fresh_world : World := init default_config 0.


(** A scaler whose last scaling action was one day and ten seconds ago. *)
Definition world_one_day_later : World :=
  set_clock (day_usec + 10 * usec) (set_last_scale_time 0 fresh_world).

Definition is_lock_event (e : Event) : bool :=
  match e with
  | EAcquire | ERelease => true
  | _ => false
  end.

Definition is_kill_event (e : Event) : bool :=
  match e with
  | EKill _ _ => true
  | _ => false
  end.


(** Every run of [m] leaves the world related to the one it started in. *)
Definition preserves {A} (R : World -> World -> Prop) (m : M A) : Prop :=
  forall w, R w (snd (m w)).

(** A worker that shuts down one second after SIGTERM, and one that
    ignores SIGTERM; either is gone three milliseconds after SIGKILL. *)
Definition graceful_worker : Popen := mkPopen Alive (Some 1000000%N) 3000%N false.
Definition stubborn_worker : Popen := mkPopen Alive None 3000%N false.

(** A running scaler that tracks one worker of each kind. *)
Definition world_two_workers : World :=
  {| last_scale_time := - 60 * usec;
     running := true;
     worker_processes := [("celery_worker_host_aaaaaaaa"%string, 0%nat);
                          ("celery_worker_host_bbbbbbbb"%string, 1%nat)];
     lock := false;
     clock := 0;
     procs := [graceful_worker; stubborn_worker];
     queries := 0;
     trace := [] |}.


(** The process behind a reference has ended in world [w]. *)
Definition ended (pid : nat) (w : World) : Prop :=
  exists p, procs w !! pid = Some p /\ gone (clock w) p = true.

(** Time does not run backwards, the scaler keeps its worker map and its
    [running] flag, and a process that has ended stays ended. *)
Definition settles (w w' : World) : Prop :=
  clock w <= clock w' /\
  worker_processes w' = worker_processes w /\
  running w' = running w /\
  forall pid, ended pid w -> ended pid w'.

(** The lock is neither taken nor released. *)
Definition leaves_lock (w w' : World) : Prop :=
  lock w' = lock w /\
  exists evs, trace w' = trace w ++ evs /\
              forallb (fun e => negb (is_lock_event e)) evs = true.

(** The events a run added to the trace. *)
Definition new_events (w w' : World) : list Event :=
  drop (length (trace w)) (trace w').

Definition is_spawn_event (e : Event) : bool :=
  match e with
  | ESpawn _ _ => true
  | _ => false
  end.

Definition count_spawns (evs : list Event) : nat :=
  length (List.filter is_spawn_event evs).

Definition spawn_ok (r : SpawnResult) : bool :=
  match r with
  | SpawnOk _ _ _ => true
  | SpawnRaises _ => false
  end.

(** The next [n] launches succeed, when the first of them starts at
    interaction [q]: each launch asks for a uuid and then starts the
    process. *)
Fixpoint launches_ok (env : Env) (q : nat) (n : nat) : bool :=
  match n with
  | O => true
  | S k => spawn_ok (popen env (S q)) && launches_ok env (S (S q)) k
  end.

(** The computation returns or raises an [Exception]: it neither blocks
    on the lock nor leaves through [SystemExit]. *)
Definition tame {A} (m : M A) : Prop :=
  forall w, match fst (m w) with
            | Ret _ | Raise (Exc _) => True
            | _ => False
            end.

(** The computation returns, whatever the world. *)
Definition always_returns {A} (m : M A) : Prop :=
  forall w, exists a, fst (m w) = Ret a.

(** An environment in which the queue is empty, the broker gives no
    census and every launch succeeds. *)
Definition uuid_of (n : nat) : string :=
  String (ascii_of_nat (97 + n mod 26)) "1b2c3d4-0000-4000-8000-000000000000".

Definition calm_env : Env :=
  {| hostname := "host";
     uuid4 := uuid_of;
     llen := fun _ _ => LlenOk 0;
     inspect_active := fun _ => InspectNone;
     popen := fun _ => SpawnOk (Some 1000000%N) 3000%N false |}.

(** A scaler without workers that has scaled this very moment: its
    cooldown has just begun. *)
Definition world_cooling : World := set_last_scale_time 0 fresh_world.

(** The name [generate_worker_name] makes at interaction [q]. *)
Definition worker_name_at (env : Env) (config : ScalingConfig) (q : nat) : string :=
  (worker_prefix config ++ "_" ++ hostname env ++ "_" ++ substring 0 8 (uuid4 env q))%string.

(** The entries that [n] successful launches write into the worker map,
    when the first launch starts at interaction [q] and the next free
    reference is [pid]. *)
Fixpoint launch_plan (env : Env) (config : ScalingConfig) (q pid n : nat) : Dict :=
  match n with
  | O => []
  | S k => (worker_name_at env config q, pid) :: launch_plan env config (S (S q)) (S pid) k
  end.

(** No name of the plan is in the map, or earlier in the plan, when it
    is written. *)
Fixpoint names_fresh (d : Dict) (plan : Dict) : bool :=
  match plan with
  | [] => true
  | (k, v) :: rest =>
      match dict_get k d with
      | Some _ => false
      | None => names_fresh (d ++ [(k, v)]) rest
      end
  end.

(** The handle refers to a process the scaler may signal. *)
Definition signalable (w : World) (worker : string * nat) : bool :=
  match procs w !! snd worker with
  | Some p => negb (os_denied p)
  | None => false
  end.

(** A field of the world keeps its value. *)
Definition keeps {A} (f : World -> A) (w w' : World) : Prop := f w' = f w.

(** The table of processes keeps its references, and whether their
    processes may be signalled. *)
Definition same_table (w w' : World) : Prop :=
  forall worker, signalable w worker = true -> signalable w' worker = true.

Definition is_call_event (e : Event) : bool :=
  match e with
  | ECall _ _ => true
  | _ => false
  end.

(** An environment whose second launch fails. *)
Definition flaky_env : Env :=
  {| hostname := "host";
     uuid4 := uuid_of;
     llen := fun _ _ => LlenOk 0;
     inspect_active := fun _ => InspectNone;
     popen := fun n => if (n <? 3)%nat then SpawnOk (Some 1000000%N) 3000%N false
                       else SpawnRaises OSError |}.

(** The defaults with [tasks_per_worker] set to zero. *)
Definition config_zero_tasks : ScalingConfig :=
  mkConfig 3 50 0 10 PyFloat.lit_0_8 PyFloat.lit_0_3 60 30 "celery_worker".



(** An environment whose broker reports three live workers and whose
    queue holds 47 tasks. *)
Definition busy_env : Env :=
  {| hostname := "host";
     uuid4 := uuid_of;
     llen := fun _ _ => LlenOk 47;
     inspect_active := fun _ => InspectActive 3;
     popen := fun _ => SpawnOk (Some 1000000%N) 3000%N false |}.

(** How the stopping of one worker in [scale_down] goes. *)
Inductive Stop : Type :=
| Graceful      (* the process ends within the grace period *)
| Forced        (* the wait times out and SIGKILL is sent *)
| Refused.      (* the first signal raises PermissionError *)

(** When the process ends if SIGTERM reaches it at time [t]; [None] for
    a worker that runs on. *)
Definition exit_after_sigterm (t : Z) (p : Popen) : option Z :=
  match pstate p with
  | Reaped _ => Some t
  | Dying t' _ => Some t'
  | Alive =>
      match sigterm_delay p with
      | Some d => Some (t + Z.of_N d)
      | None => None
      end
  end.

(** The course that the state of the process at time [t] decides. *)
Definition stop_of (t : Z) (p : Popen) : Stop :=
  if gone t p then Graceful
  else if os_denied p then Refused
  else match exit_after_sigterm t p with
       | Some t' => if t' <=? t + 5 * usec then Graceful else Forced
       | None => Forced
       end.

(** The process has ended or is on its way out: a signal that ends it
    has been delivered. *)
Definition winding_down (pid : nat) (w : World) : Prop :=
  exists p, procs w !! pid = Some p /\ pstate p <> Alive.

Definition keeps_winding_down (w w' : World) : Prop :=
  forall pid, winding_down pid w -> winding_down pid w'.

(** A signal to the handle cannot be refused: its process has been
    reaped, or [os.kill] on it is allowed. *)
Definition settled (w : World) (worker : string * nat) : bool :=
  match procs w !! snd worker with
  | Some p =>
      match pstate p with
      | Reaped _ => true
      | _ => negb (os_denied p)
      end
  | None => false
  end.

Definition stays_settled (w w' : World) : Prop :=
  forall worker, settled w worker = true -> settled w' worker = true.

(** Ended processes stay ended, the trace grows, and every signal
    delivered goes to a process that had not ended at the start. *)
Definition signals_the_living (w w' : World) : Prop :=
  (forall pid, ended pid w -> ended pid w') /\
  exists evs, trace w' = trace w ++ evs /\
              forall pid s, In (EKill pid s) evs -> ~ ended pid w.

(* ===================================================================== *)
(** ** The scaling policy *)

Section Policy.

Variable config : ScalingConfig.

Lemma max_min_is_clamp (x lo hi : Z) :
  lo <= hi -> Z.max lo (Z.min hi x) = clamp x lo hi.
Proof.
  intros Hle. unfold clamp.
  destruct (Z.ltb_spec x lo), (Z.ltb_spec hi x); lia.
Qed.

Lemma ceil_div_exact (a b : Z) : 0 < b -> a mod b = 0 -> ceil_div a b = a / b.
Proof.
  intros Hb Hm. unfold ceil_div.
  rewrite Z.div_opp_l_z by lia. lia.
Qed.

Lemma desired_workers_eq (q : Z) (w : World) :
  tasks_per_worker config <> 0 ->
  desired_workers config q w =
    (Ret (Z.max (min_workers config)
            (Z.min (max_workers config) (q / tasks_per_worker config + 1))), w).
Proof.
  intros Ht. unfold desired_workers, floordiv, bind.
  destruct (Z.eqb_spec (tasks_per_worker config) 0); [contradiction|reflexivity].
Qed.

Lemma timedelta_seconds_lt (delta c : Z) :
  timedelta_seconds delta < c <-> delta mod day_usec < c * usec.
Proof.
  unfold timedelta_seconds, usec. split; intros H.
  - assert (Hd := Z.mul_div_le (delta mod day_usec) 1000000 ltac:(lia)).
    assert (Hm := Z.mod_pos_bound (delta mod day_usec) 1000000 ltac:(lia)).
    rewrite Z.mod_eq in Hm by lia. lia.
  - apply Z.div_lt_upper_bound; lia.
Qed.

Lemma should_scale_cooling (d c : Z) (w : World) :
  timedelta_seconds (clock w - last_scale_time w) < cooldown_period config ->
  should_scale config d c w = (Ret false, w).
Proof.
  intros H. unfold should_scale, bind, now, gets. simpl.
  destruct (Z.ltb_spec (timedelta_seconds (clock w - last_scale_time w))
              (cooldown_period config)); [reflexivity|lia].
Qed.

Lemma should_scale_ready (d c : Z) (w : World) :
  cooldown_period config <= timedelta_seconds (clock w - last_scale_time w) ->
  should_scale config d c w =
    match PyFloat.int_of_int_times c PyFloat.lit_0_2 with
    | Some fifth => (Ret (Z.max 2 fifth <=? Z.abs (d - c)), w)
    | None => (Raise (Exc OverflowError), w)
    end.
Proof.
  intros H. unfold should_scale, bind, now, gets, int_times_0_2. simpl.
  destruct (Z.ltb_spec (timedelta_seconds (clock w - last_scale_time w))
              (cooldown_period config)); [lia|].
  destruct (PyFloat.int_of_int_times c PyFloat.lit_0_2); reflexivity.
Qed.

Lemma should_scale_state (d c : Z) (w : World) :
  snd (should_scale config d c w) = w.
Proof.
  unfold should_scale, bind, now, gets, int_times_0_2. simpl.
  destruct (_ <? _); [reflexivity|].
  destruct (PyFloat.int_of_int_times c PyFloat.lit_0_2); reflexivity.
Qed.

End Policy.

Lemma all_from_spec (P : Z -> bool) (n : nat) (c : Z) :
  all_from n c P = true ->
  forall x, c <= x < c + Z.of_nat n -> P x = true.
Proof.
  revert c. induction n as [|n IH]; intros c H x Hx; [lia|].
  simpl in H. apply andb_prop in H as [Hc Hrest].
  destruct (Z.eq_dec x c) as [->|Hne]; [exact Hc|].
  apply (IH (c + 1) Hrest). lia.
Qed.

(** On every worker count below [checked_counts] the truncated binary64
    product [int(c * 0.2)] is the integer quotient [c / 5]. *)
Lemma int_times_0_2_floor (c : Z) :
  0 <= c < checked_counts ->
  PyFloat.int_of_int_times c PyFloat.lit_0_2 = Some (c / 5).
Proof.
  intros Hc.
  assert (Hall : all_from (Z.to_nat checked_counts) 0 fifth_is_floor = true)
    by (vm_compute; reflexivity).
  assert (H := all_from_spec _ _ _ Hall c).
  unfold fifth_is_floor in H.
  destruct (PyFloat.int_of_int_times c PyFloat.lit_0_2) as [v|].
  - f_equal. apply Z.eqb_eq. apply H. unfold checked_counts in *. lia.
  - discriminate H. unfold checked_counts in *. lia.
Qed.

Example int_3_times_0_2 : PyFloat.int_of_int_times 3 PyFloat.lit_0_2 = Some 0.
Proof. reflexivity. Qed.
Example int_13_times_0_2 : PyFloat.int_of_int_times 13 PyFloat.lit_0_2 = Some 2.
Proof. reflexivity. Qed.
Example int_15_times_0_2 : PyFloat.int_of_int_times 15 PyFloat.lit_0_2 = Some 3.
Proof. reflexivity. Qed.


(* --------------------------------------------------------------------- *)
(** *** The desired number of workers *)

(** C1, as stated, fails: with two tasks per worker and five queued tasks
    the code computes [5 // 2 + 1 = 3] where the stated formula gives
    [ceil(5 / 2) + 1 = 4]; both lie inside the bounds 3 and 50. *)
Lemma desired_workers_differs_from_ceil :
  0 <= 5 /\ 1 <= tasks_per_worker config_two_tasks /\
  0 < min_workers config_two_tasks <= max_workers config_two_tasks /\
  fst (desired_workers config_two_tasks 5 fresh_world) = Ret 3 /\
  spec_desiredWorkers 5 (tasks_per_worker config_two_tasks)
    (min_workers config_two_tasks) (max_workers config_two_tasks) = 4 /\
  fst (desired_workers config_two_tasks 5 fresh_world) <>
    Ret (spec_desiredWorkers 5 (tasks_per_worker config_two_tasks)
           (min_workers config_two_tasks) (max_workers config_two_tasks)).
Proof.
  repeat split; try (simpl; lia); try reflexivity.
  vm_compute. discriminate.
Qed.

(** C1, amended: for every queue length >= 0, tasks per worker >= 1 and
    bounds with 0 < min <= max, the desired-worker computation of
    [scale_workers] returns [clamp(floor(queue_length / tasks_per_worker)
    + 1, min, max)], without raising and without touching the state; this
    is the stated [ceil] formula whenever [tasks_per_worker] divides the
    queue length. *)
Theorem desired_workers_floor_clamp (config : ScalingConfig) (q : Z) (w : World) :
  0 <= q ->
  1 <= tasks_per_worker config ->
  0 < min_workers config <= max_workers config ->
  desired_workers config q w =
    (Ret (clamp (q / tasks_per_worker config + 1)
            (min_workers config) (max_workers config)), w)
  /\ (q mod tasks_per_worker config = 0 ->
      clamp (q / tasks_per_worker config + 1) (min_workers config) (max_workers config)
      = spec_desiredWorkers q (tasks_per_worker config)
          (min_workers config) (max_workers config)).
Proof.
  intros Hq Ht Hb. split.
  - rewrite desired_workers_eq by lia.
    rewrite max_min_is_clamp by lia. reflexivity.
  - intros Hm. unfold spec_desiredWorkers.
    rewrite ceil_div_exact by lia. reflexivity.
Qed.

Lemma desired_workers_floor_clamp_witness :
  0 <= 47 /\ 1 <= tasks_per_worker default_config /\
  0 < min_workers default_config <= max_workers default_config /\
  desired_workers default_config 47 fresh_world = (Ret 48, fresh_world).
Proof.
  assert (Hq : 0 <= 47) by lia.
  assert (Ht : 1 <= tasks_per_worker default_config) by (simpl; lia).
  assert (Hb : 0 < min_workers default_config <= max_workers default_config)
    by (simpl; lia).
  split; [exact Hq|]. split; [exact Ht|]. split; [exact Hb|].
  exact (proj1 (desired_workers_floor_clamp default_config 47 fresh_world Hq Ht Hb)).
Defined.

(* --------------------------------------------------------------------- *)
(** *** The deadband of [should_scale] *)

(** C4, as stated, fails: with 13 workers and 15 desired, cooldown
    elapsed, [should_scale] answers [True] although the difference 2 is
    below [max(2, round(13 * 0.2)) = 3]; the code truncates 2.6 to 2. *)
Lemma should_scale_true_below_rounded_deadband :
  cooldown_period default_config * usec
    <= clock fresh_world - last_scale_time fresh_world /\
  should_scale default_config 15 13 fresh_world = (Ret true, fresh_world) /\
  spec_deadband 13 = 3 /\
  ~ (Z.abs (15 - 13) >= spec_deadband 13).
Proof.
  split; [vm_compute; congruence|].
  split; [reflexivity|].
  split; [reflexivity|].
  vm_compute. intros H. apply H. reflexivity.
Qed.

(** C4, amended: for every desired and current worker count, when at
    least the cooldown period has elapsed since [last_scale_time],
    [should_scale] returns true only if |desired - current| >=
    max(2, int(current * 0.2)), where [int] truncates the binary64
    product toward zero; for 0 <= current < 65536 that is
    max(2, floor(current / 5)). *)
Theorem should_scale_true_only_if_deadband
    (config : ScalingConfig) (desired current : Z) (w w' : World) :
  cooldown_period config * usec <= clock w - last_scale_time w ->
  should_scale config desired current w = (Ret true, w') ->
  exists fifth,
    PyFloat.int_of_int_times current PyFloat.lit_0_2 = Some fifth /\
    Z.abs (desired - current) >= Z.max 2 fifth /\
    (0 <= current < checked_counts -> fifth = current / 5).
Proof.
  intros _ Hs.
  destruct (Z.lt_ge_cases (timedelta_seconds (clock w - last_scale_time w))
              (cooldown_period config)) as [Hcool|Hready].
  - rewrite should_scale_cooling in Hs by exact Hcool. discriminate Hs.
  - rewrite should_scale_ready in Hs by exact Hready.
    destruct (PyFloat.int_of_int_times current PyFloat.lit_0_2) as [fifth|] eqn:Hf;
      [|discriminate Hs].
    exists fifth. split; [reflexivity|]. split.
    + injection Hs as Hb _. apply Z.leb_le in Hb. lia.
    + intros Hc. rewrite int_times_0_2_floor in Hf by exact Hc. congruence.
Qed.

Lemma should_scale_true_only_if_deadband_witness :
  cooldown_period default_config * usec
    <= clock fresh_world - last_scale_time fresh_world /\
  should_scale default_config 48 3 fresh_world = (Ret true, fresh_world) /\
  exists fifth,
    PyFloat.int_of_int_times 3 PyFloat.lit_0_2 = Some fifth /\
    Z.abs (48 - 3) >= Z.max 2 fifth /\
    (0 <= 3 < checked_counts -> fifth = 3 / 5).
Proof.
  assert (Hc : cooldown_period default_config * usec
               <= clock fresh_world - last_scale_time fresh_world)
    by (vm_compute; congruence).
  assert (Hs : should_scale default_config 48 3 fresh_world = (Ret true, fresh_world))
    by reflexivity.
  split; [exact Hc|]. split; [exact Hs|].
  exact (should_scale_true_only_if_deadband default_config 48 3 fresh_world fresh_world Hc Hs).
Defined.

(* --------------------------------------------------------------------- *)
(** *** The cooldown test of [should_scale] *)

(** C9: the cooldown test reads [timedelta.seconds], the sub-day part of
    [now - last_scale_time]; so whenever (now - last_scale_time) modulo
    24 hours is less than the cooldown period, [should_scale] returns
    false for every desired and current count -- also when whole days
    have gone by. *)
Theorem should_scale_false_on_sub_day_part
    (config : ScalingConfig) (desired current : Z) (w : World) :
  (clock w - last_scale_time w) mod day_usec < cooldown_period config * usec ->
  should_scale config desired current w = (Ret false, w).
Proof.
  intros H. apply should_scale_cooling. apply timedelta_seconds_lt. exact H.
Qed.

Lemma should_scale_false_on_sub_day_part_witness :
  clock world_one_day_later - last_scale_time world_one_day_later
    = 1 * day_usec + 10 * usec /\
  (clock world_one_day_later - last_scale_time world_one_day_later) mod day_usec
    < cooldown_period default_config * usec /\
  should_scale default_config 48 3 world_one_day_later = (Ret false, world_one_day_later).
Proof.
  assert (H : (clock world_one_day_later - last_scale_time world_one_day_later)
                mod day_usec < cooldown_period default_config * usec)
    by (vm_compute; reflexivity).
  split; [reflexivity|]. split; [exact H|].
  exact (should_scale_false_on_sub_day_part default_config 48 3 world_one_day_later H).
Defined.

(** Elapsed times of whole days plus less than a cooldown are refused as
    well, as are all elapsed times below the cooldown. *)
Lemma should_scale_false_days_later
    (config : ScalingConfig) (desired current days rest : Z) (w : World) :
  0 <= rest < cooldown_period config * usec ->
  clock w - last_scale_time w = days * day_usec + rest ->
  should_scale config desired current w = (Ret false, w).
Proof.
  intros Hr He. apply should_scale_cooling. apply timedelta_seconds_lt.
  rewrite He, Z.add_comm, Z.mod_add by (unfold day_usec, usec; lia).
  assert (H := Z.mod_le rest day_usec ltac:(lia) ltac:(unfold day_usec, usec; lia)).
  lia.
Qed.

(* --------------------------------------------------------------------- *)
(** *** Reading the queue length *)

(** C6: for every queue name, [get_queue_length] returns to its caller
    in every case: the length read when the counter store answers, and 0
    when the read raises any exception. *)
Theorem get_queue_length_never_raises (env : Env) (queue_name : string) (w : World) :
  fst (get_queue_length env queue_name w) =
    Ret (match llen env (queries w) queue_name with
         | LlenOk n => n
         | LlenRaises _ => 0
         end).
Proof.
  unfold get_queue_length, try_except, redis_llen.
  destruct (llen env (queries w) queue_name) as [n|e]; [reflexivity|].
  destruct e; reflexivity.
Qed.

(** The failure is logged, once, and nothing else happens. *)
Lemma get_queue_length_logs_failure (env : Env) (queue_name : string) (w : World)
    (e : PyException) :
  llen env (queries w) queue_name = LlenRaises e ->
  exists m, snd (get_queue_length env queue_name w) = emit (ELog m) (next_query w).
Proof.
  intros H. unfold get_queue_length, try_except, redis_llen. rewrite H.
  destruct e; eexists; reflexivity.
Qed.

(* --------------------------------------------------------------------- *)
(** *** The two threshold fields *)

(** C7: the scaling decision does not depend on [scale_up_threshold] and
    [scale_down_threshold]: two configurations that differ only in these
    two fields give [should_scale] and [scale_workers] the same result,
    the same final state and the same actions on every input. *)
Theorem thresholds_are_inert (env : Env) (c1 c2 : ScalingConfig) :
  same_but_thresholds c1 c2 ->
  (forall desired current w,
      should_scale c1 desired current w = should_scale c2 desired current w) /\
  (forall queue_length w,
      scale_workers env c1 queue_length w = scale_workers env c2 queue_length w).
Proof.
  destruct c1 as [mn1 mx1 t1 ci1 up1 dn1 cd1 st1 pf1].
  destruct c2 as [mn2 mx2 t2 ci2 up2 dn2 cd2 st2 pf2].
  unfold same_but_thresholds. simpl.
  intros (-> & -> & -> & -> & -> & -> & ->).
  split; intros; reflexivity.
Qed.

Lemma thresholds_are_inert_witness :
  same_but_thresholds default_config
    (with_thresholds PyFloat.lit_0_2 PyFloat.lit_0_3 default_config) /\
  (forall desired current w,
      should_scale default_config desired current w =
      should_scale (with_thresholds PyFloat.lit_0_2 PyFloat.lit_0_3 default_config)
        desired current w) /\
  (forall env queue_length w,
      scale_workers env default_config queue_length w =
      scale_workers env (with_thresholds PyFloat.lit_0_2 PyFloat.lit_0_3 default_config)
        queue_length w).
Proof.
  assert (H : same_but_thresholds default_config
                (with_thresholds PyFloat.lit_0_2 PyFloat.lit_0_3 default_config)).
  { unfold same_but_thresholds. simpl.
    split; [reflexivity|]. split; [reflexivity|]. split; [reflexivity|].
    split; [reflexivity|]. split; [reflexivity|]. split; reflexivity. }
  split; [exact H|]. split.
  - exact (proj1 (thresholds_are_inert (mkEnv "" (fun _ => ""%string)
                    (fun _ _ => LlenOk 0) (fun _ => InspectNone)
                    (fun _ => SpawnRaises OSError)) _ _ H)).
  - intros env. exact (proj2 (thresholds_are_inert env _ _ H)).
Defined.

(* ===================================================================== *)
(** ** Processes and the worker map *)

Lemma lookup_set_proc_eq (w : World) (pid : nat) (p q : Popen) :
  procs w !! pid = Some q -> procs (set_proc pid p w) !! pid = Some p.
Proof.
  intros H. unfold set_proc. simpl.
  apply list_lookup_insert_eq. eapply lookup_lt_Some. exact H.
Qed.

(* --------------------------------------------------------------------- *)
(** *** Stopping one worker in [scale_down] *)

Lemma procs_emit (e : Event) (w : World) : procs (emit e w) = procs w.
Proof. reflexivity. Qed.

Lemma procs_set_clock (t : Z) (w : World) : procs (set_clock t w) = procs w.
Proof. reflexivity. Qed.

Ltac find_proc :=
  repeat first
    [ eassumption
    | eapply lookup_set_proc_eq
    | rewrite procs_emit
    | rewrite procs_set_clock
    | rewrite list_lookup_insert_eq
        by (rewrite ?length_insert; eapply lookup_lt_Some; eassumption);
      reflexivity ].

Lemma terminate_eq (pid : nat) (p : Popen) (w : World) :
  procs w !! pid = Some p ->
  terminate pid w =
    let w0 := emit (ECall pid MTerminate) w in
    let p1 := poll (clock w) p in
    match pstate p1 with
    | Reaped _ => (Ret tt, set_proc pid p1 w0)
    | _ =>
        if os_denied p1 then (Raise (Exc PermissionError), set_proc pid p1 w0)
        else (Ret tt, emit (EKill pid SIGTERM)
                        (set_proc pid (deliver (clock w) SIGTERM p1) (set_proc pid p1 w0)))
    end.
Proof.
  intros H. unfold terminate, bind, modify, send_signal. simpl. rewrite H.
  reflexivity.
Qed.

Lemma kill_eq (pid : nat) (p : Popen) (w : World) :
  procs w !! pid = Some p ->
  kill pid w =
    let w0 := emit (ECall pid MKill) w in
    let p1 := poll (clock w) p in
    match pstate p1 with
    | Reaped _ => (Ret tt, set_proc pid p1 w0)
    | _ =>
        if os_denied p1 then (Raise (Exc PermissionError), set_proc pid p1 w0)
        else (Ret tt, emit (EKill pid SIGKILL)
                        (set_proc pid (deliver (clock w) SIGKILL p1) (set_proc pid p1 w0)))
    end.
Proof.
  intros H. unfold kill, bind, modify, send_signal. simpl. rewrite H.
  reflexivity.
Qed.

Lemma wait_eq (pid : nat) (p : Popen) (timeout : Z) (w : World) :
  procs w !! pid = Some p ->
  wait pid timeout w =
    let w0 := emit (ECall pid (MWait timeout)) w in
    match pstate p with
    | Reaped c => (Ret c, w0)
    | Dying t c =>
        if t <=? clock w + timeout * usec
        then (Ret c, set_clock (Z.max (clock w) t)
                       (set_proc pid (with_pstate (Reaped c) p) w0))
        else (Raise (Exc TimeoutExpired), set_clock (clock w + timeout * usec) w0)
    | Alive => (Raise (Exc TimeoutExpired), set_clock (clock w + timeout * usec) w0)
    end.
Proof.
  intros H. unfold wait, bind, modify, wait_for. simpl. rewrite H.
  reflexivity.
Qed.

(* ===================================================================== *)
(** ** Relations kept by every run of a computation *)

Section Preserves.

Variable R : World -> World -> Prop.
Hypothesis R_refl : forall w, R w w.
Hypothesis R_trans : forall a b c, R a b -> R b c -> R a c.

Lemma preserves_ret {A} (a : A) : preserves R (ret a).
Proof. intros w. apply R_refl. Qed.

Lemma preserves_raise {A} (e : PyException) : preserves R (raise (A:=A) e).
Proof. intros w. apply R_refl. Qed.

Lemma preserves_gets {A} (f : World -> A) : preserves R (gets f).
Proof. intros w. apply R_refl. Qed.

Lemma preserves_bind {A B} (m : M A) (k : A -> M B) :
  preserves R m -> (forall a, preserves R (k a)) -> preserves R (bind m k).
Proof.
  intros Hm Hk w. unfold bind.
  specialize (Hm w). destruct (m w) as [[a|r|] w1]; simpl in *;
    [eapply R_trans; [exact Hm|apply Hk] | exact Hm | exact Hm].
Qed.

Lemma preserves_try_except {A} (body : M A) (handler : PyException -> option (M A)) :
  preserves R body ->
  (forall e h, handler e = Some h -> preserves R h) ->
  preserves R (try_except body handler).
Proof.
  intros Hb Hh w. unfold try_except.
  specialize (Hb w). destruct (body w) as [[a|[e|c]|] w1]; simpl in *; try exact Hb.
  destruct (handler e) as [h|] eqn:He; simpl; [|exact Hb].
  eapply R_trans; [exact Hb|]. apply (Hh e h He).
Qed.

Lemma preserves_for_each {A} (l : list A) (body : A -> M unit) :
  (forall x, preserves R (body x)) -> preserves R (for_each l body).
Proof.
  intros Hb. induction l as [|x l IH]; simpl.
  - apply preserves_ret.
  - apply preserves_bind; [apply Hb|intros _; exact IH].
Qed.

End Preserves.

Lemma for_each_ret_inv {A} (x : A) (l : list A) (body : A -> M unit) (w w' : World) :
  for_each (x :: l) body w = (Ret tt, w') ->
  exists w1, body x w = (Ret tt, w1) /\ for_each l body w1 = (Ret tt, w').
Proof.
  simpl. unfold bind. destruct (body x w) as [[[]|r|] w1]; intros H; try discriminate H.
  exists w1. split; [reflexivity|exact H].
Qed.

(* --------------------------------------------------------------------- *)
(** *** Ended processes stay ended *)

Lemma gone_later (t t' : Z) (p : Popen) : t <= t' -> gone t p = true -> gone t' p = true.
Proof.
  unfold gone. destruct (pstate p); intros Hle H; try assumption.
  apply Z.leb_le in H. apply Z.leb_le. lia.
Qed.

Lemma gone_poll (t : Z) (p : Popen) :
  gone t p = true -> exists c, pstate (poll t p) = Reaped c.
Proof.
  unfold gone, poll. destruct (pstate p) as [|t' c|c] eqn:E; intros H.
  - discriminate H.
  - rewrite H. eexists; reflexivity.
  - rewrite E. eexists; reflexivity.
Qed.

Lemma settles_refl (w : World) : settles w w.
Proof. unfold settles. repeat split; auto; lia. Qed.

Lemma settles_trans (a b c : World) : settles a b -> settles b c -> settles a c.
Proof.
  unfold settles. intros (H1 & H2 & H3 & H4) (H5 & H6 & H7 & H8).
  repeat split; try congruence; try lia.
  intros pid H. auto.
Qed.

Lemma ended_set_proc (pid q : nat) (p' : Popen) (t : Z) (w : World) :
  ended q w -> clock w <= t ->
  (q = pid -> gone t p' = true) ->
  ended q (set_clock t (set_proc pid p' w)).
Proof.
  intros (p & Hp & Hg) Hle Hq. unfold ended. simpl.
  destruct (Nat.eq_dec q pid) as [->|Hne].
  - exists p'. split; [|auto].
    apply list_lookup_insert_eq. eapply lookup_lt_Some; exact Hp.
  - exists p. split; [|eapply gone_later; eassumption].
    rewrite list_lookup_insert_ne by congruence. exact Hp.
Qed.

Lemma settles_emit (e : Event) : preserves settles (modify (emit e)).
Proof.
  intros w. simpl. unfold settles. simpl. repeat split; auto; lia.
Qed.

Lemma settles_send_signal (pid : nat) (s : Signal) : preserves settles (send_signal pid s).
Proof.
  intros w. unfold send_signal.
  destruct (procs w !! pid) as [p|] eqn:Hp; [|apply settles_refl].
  assert (Hstep : forall p', (gone (clock w) p = true -> gone (clock w) p' = true) ->
            settles w (set_proc pid p' w)).
  { intros p' Hg. unfold settles. simpl. repeat split; auto; try lia.
    intros q Hq.
    assert (H := ended_set_proc pid q p' (clock w) w Hq ltac:(lia)).
    apply H. intros ->. destruct Hq as (p0 & Hp0 & Hg0).
    rewrite Hp in Hp0. injection Hp0 as <-. auto. }
  assert (Hpoll : gone (clock w) p = true -> gone (clock w) (poll (clock w) p) = true).
  { intros Hg. destruct (gone_poll _ _ Hg) as [c Hc]. unfold gone. rewrite Hc. reflexivity. }
  destruct (pstate (poll (clock w) p)) as [|t c|c] eqn:Hs; simpl.
  - destruct (os_denied (poll (clock w) p)); simpl; [apply Hstep, Hpoll|].
    unfold settles. simpl. repeat split; auto; try lia.
    intros q (p0 & Hp0 & Hg0). unfold ended. simpl.
    destruct (Nat.eq_dec q pid) as [->|Hne].
    + rewrite Hp in Hp0. injection Hp0 as <-.
      destruct (gone_poll _ _ Hg0) as [c Hc]. congruence.
    + exists p0. rewrite !list_lookup_insert_ne by congruence. auto.
  - destruct (os_denied (poll (clock w) p)); simpl; [apply Hstep, Hpoll|].
    unfold settles. simpl. repeat split; auto; try lia.
    intros q (p0 & Hp0 & Hg0). unfold ended. simpl.
    destruct (Nat.eq_dec q pid) as [->|Hne].
    + rewrite Hp in Hp0. injection Hp0 as <-.
      destruct (gone_poll _ _ Hg0) as [c' Hc]. congruence.
    + exists p0. rewrite !list_lookup_insert_ne by congruence. auto.
  - apply Hstep, Hpoll.
Qed.

Lemma settles_wait_for (pid : nat) (timeout : Z) :
  0 <= timeout -> preserves settles (wait_for pid timeout).
Proof.
  intros Ht w. unfold wait_for.
  destruct (procs w !! pid) as [p|] eqn:Hp; [|apply settles_refl].
  assert (Hlate : forall t, clock w <= t -> settles w (set_clock t w)).
  { intros t Hle. unfold settles. simpl. repeat split; auto.
    intros q (p0 & Hp0 & Hg0). exists p0. simpl. split; [exact Hp0|].
    eapply gone_later; eassumption. }
  destruct (pstate p) as [|t c|c] eqn:Hs; simpl.
  - apply Hlate. unfold usec. lia.
  - destruct (Z.leb_spec t (clock w + timeout * usec)); simpl.
    + unfold settles. simpl. repeat split; auto; try lia.
      intros q Hq. apply (ended_set_proc pid q _ _ w Hq); [lia|]. reflexivity.
    + apply Hlate. unfold usec. lia.
  - apply settles_refl.
Qed.

Lemma settles_terminate (pid : nat) : preserves settles (terminate pid).
Proof.
  apply (preserves_bind _ settles_trans); [apply settles_emit|].
  intros _. apply settles_send_signal.
Qed.

Lemma settles_kill (pid : nat) : preserves settles (kill pid).
Proof.
  apply (preserves_bind _ settles_trans); [apply settles_emit|].
  intros _. apply settles_send_signal.
Qed.

Lemma settles_wait (pid : nat) (timeout : Z) :
  0 <= timeout -> preserves settles (wait pid timeout).
Proof.
  intros Ht.
  apply (preserves_bind _ settles_trans); [apply settles_emit|].
  intros _. apply settles_wait_for. exact Ht.
Qed.

Lemma settles_cleanup_one (worker : string * nat) : preserves settles (cleanup_one worker).
Proof.
  destruct worker as [name pid]. unfold cleanup_one.
  apply (preserves_try_except _ settles_trans).
  - apply (preserves_bind _ settles_trans); [apply settles_terminate|].
    intros _.
    apply (preserves_bind _ settles_trans).
    + apply settles_wait. lia.
    + intros _. apply (preserves_ret _ settles_refl).
  - intros e h [= <-]. apply settles_kill.
Qed.

(* --------------------------------------------------------------------- *)
(** *** [cleanup], unfolded *)

Lemma cleanup_unfold (w : World) :
  cleanup w =
    for_each (worker_processes w) cleanup_one
      (set_running false (emit (ELog LogCleaningUp) w)).
Proof. reflexivity. Qed.

(* ===================================================================== *)
(** ** Computations that cannot block or exit *)

Lemma tame_ret {A} (a : A) : tame (ret a).
Proof. intros w. exact I. Qed.

Lemma tame_raise {A} (e : PyException) : tame (raise (A:=A) e).
Proof. intros w. exact I. Qed.

Lemma tame_gets {A} (f : World -> A) : tame (gets f).
Proof. intros w. exact I. Qed.

Lemma tame_modify (f : World -> World) : tame (modify f).
Proof. intros w. exact I. Qed.

Lemma tame_bind {A B} (m : M A) (k : A -> M B) :
  tame m -> (forall a, tame (k a)) -> tame (bind m k).
Proof.
  intros Hm Hk w. unfold bind. specialize (Hm w).
  destruct (m w) as [[a|[e|c]|] w1]; simpl in *; try exact Hm.
  apply Hk.
Qed.

Lemma tame_try_except {A} (body : M A) (handler : PyException -> option (M A)) :
  tame body -> (forall e h, handler e = Some h -> tame h) ->
  tame (try_except body handler).
Proof.
  intros Hb Hh w. unfold try_except. specialize (Hb w).
  destruct (body w) as [[a|[e|c]|] w1]; simpl in *; try exact Hb.
  destruct (handler e) as [h|] eqn:He; simpl; [|exact I].
  apply (Hh e h He).
Qed.

Lemma tame_for_each {A} (l : list A) (body : A -> M unit) :
  (forall x, tame (body x)) -> tame (for_each l body).
Proof.
  intros Hb. induction l as [|x l IH]; simpl.
  - apply tame_ret.
  - apply tame_bind; [apply Hb|intros _; exact IH].
Qed.

(** [try: body except Exception as e: handler] returns whenever its
    handler does. *)
Lemma catch_all_returns {A} (body : M A) (handler : PyException -> M A) :
  tame body -> (forall e, always_returns (handler e)) ->
  always_returns (try_except body (fun e => Some (handler e))).
Proof.
  intros Hb Hh w. unfold try_except. specialize (Hb w).
  destruct (body w) as [[a|[e|c]|] w1]; simpl in *; try contradiction.
  - eauto.
  - apply Hh.
Qed.

Lemma tame_send_signal (pid : nat) (s : Signal) : tame (send_signal pid s).
Proof.
  intros w. unfold send_signal.
  destruct (procs w !! pid) as [p|]; [|exact I].
  destruct (pstate (poll (clock w) p)); try exact I;
    destruct (os_denied (poll (clock w) p)); exact I.
Qed.

Lemma tame_wait_for (pid : nat) (timeout : Z) : tame (wait_for pid timeout).
Proof.
  intros w. unfold wait_for.
  destruct (procs w !! pid) as [p|]; [|exact I].
  destruct (pstate p); try exact I.
  destruct (_ <=? _); exact I.
Qed.

Lemma tame_terminate (pid : nat) : tame (terminate pid).
Proof. apply tame_bind; [apply tame_modify|intros _; apply tame_send_signal]. Qed.

Lemma tame_kill (pid : nat) : tame (kill pid).
Proof. apply tame_bind; [apply tame_modify|intros _; apply tame_send_signal]. Qed.

Lemma tame_wait (pid : nat) (timeout : Z) : tame (wait pid timeout).
Proof. apply tame_bind; [apply tame_modify|intros _; apply tame_wait_for]. Qed.

Lemma tame_sleep (secs : Z) : tame (sleep secs).
Proof. intros w. unfold sleep. destruct (secs <? 0); exact I. Qed.

Lemma tame_floordiv (a b : Z) : tame (floordiv a b).
Proof. intros w. unfold floordiv. destruct (b =? 0); exact I. Qed.

Lemma tame_cleanup_one (worker : string * nat) : tame (cleanup_one worker).
Proof.
  destruct worker as [name pid]. unfold cleanup_one.
  apply tame_try_except.
  - apply tame_bind; [apply tame_terminate|intros _].
    apply tame_bind; [apply tame_wait|intros _; apply tame_ret].
  - intros e h [= <-]. apply tame_kill.
Qed.


(* ===================================================================== *)
(** ** The lock *)

Lemma leaves_lock_refl (w : World) : leaves_lock w w.
Proof.
  split; [reflexivity|]. exists []. split; [symmetry; apply app_nil_r|reflexivity].
Qed.

Lemma leaves_lock_trans (a b c : World) :
  leaves_lock a b -> leaves_lock b c -> leaves_lock a c.
Proof.
  intros (H1 & e1 & H2 & H3) (G1 & e2 & G2 & G3).
  split; [congruence|]. exists (e1 ++ e2). split.
  - rewrite G2, H2, app_assoc. reflexivity.
  - rewrite forallb_app, H3, G3. reflexivity.
Qed.

Lemma leaves_lock_emit (e : Event) :
  is_lock_event e = false -> preserves leaves_lock (modify (emit e)).
Proof.
  intros He w. split; [reflexivity|]. exists [e]. split; [reflexivity|].
  simpl. rewrite He. reflexivity.
Qed.

Lemma leaves_lock_quiet (w w' : World) :
  lock w' = lock w -> trace w' = trace w -> leaves_lock w w'.
Proof.
  intros Hl Ht. split; [exact Hl|]. exists []. rewrite app_nil_r. auto.
Qed.

Lemma leaves_lock_send_signal (pid : nat) (s : Signal) :
  preserves leaves_lock (send_signal pid s).
Proof.
  intros w. unfold send_signal.
  destruct (procs w !! pid) as [p|]; [|apply leaves_lock_refl].
  destruct (pstate (poll (clock w) p));
    try (apply leaves_lock_quiet; reflexivity);
    destruct (os_denied (poll (clock w) p));
    try (apply leaves_lock_quiet; reflexivity);
    (split; [reflexivity|]; exists [EKill pid s]; split; reflexivity).
Qed.

Lemma leaves_lock_wait_for (pid : nat) (timeout : Z) :
  preserves leaves_lock (wait_for pid timeout).
Proof.
  intros w. unfold wait_for.
  destruct (procs w !! pid) as [p|]; [|apply leaves_lock_refl].
  destruct (pstate p); try (apply leaves_lock_quiet; reflexivity).
  destruct (_ <=? _); apply leaves_lock_quiet; reflexivity.
Qed.






(* ===================================================================== *)
(** ** Launching workers: [scale_up] *)

Lemma count_spawns_app (a b : list Event) :
  count_spawns (a ++ b) = (count_spawns a + count_spawns b)%nat.
Proof. unfold count_spawns. rewrite List.filter_app, length_app. reflexivity. Qed.

Lemma count_spawns_all (evs : list Event) :
  forallb is_spawn_event evs = true -> count_spawns evs = length evs.
Proof.
  unfold count_spawns. induction evs as [|e evs IH]; simpl; [reflexivity|].
  intros H. apply andb_prop in H as [He Hr]. rewrite He. simpl. f_equal. auto.
Qed.

(** What [n] successful launches do to the world. *)
Lemma spawn_workers_ok (env : Env) (config : ScalingConfig) (n : nat) (w : World) :
  launches_ok env (queries w) n = true ->
  exists w' evs,
    spawn_workers env config n w = (Ret tt, w') /\
    clock w' = clock w /\
    last_scale_time w' = last_scale_time w /\
    lock w' = lock w /\
    running w' = running w /\
    length (procs w') = (length (procs w) + n)%nat /\
    queries w' = (queries w + 2 * n)%nat /\
    trace w' = trace w ++ evs /\
    length evs = n /\
    forallb is_spawn_event evs = true.
Proof.
  revert w. induction n as [|n IH]; intros w H.
  - exists w, []. simpl. rewrite app_nil_r, !Nat.add_0_r.
    repeat split; reflexivity.
  - simpl in H. apply andb_prop in H as [Hp Hrest].
    destruct (popen env (S (queries w))) as [d kd den|e] eqn:Hpop; [|discriminate Hp].
    cbn [spawn_workers]. unfold bind at 1. unfold generate_worker_name.
    unfold bind at 1. unfold Popen_new. cbn [queries next_query]. rewrite Hpop.
    unfold bind at 1. unfold dict_store, modify.
    match goal with
    | |- context [spawn_workers env config n ?w1] =>
        destruct (IH w1) as (w' & evs & Hs & Hc & Hl & Hk & Hr & Hn & Hq & Ht & Hlen & Hall);
        [exact Hrest|]
    end.
    simpl in Hc, Hl, Hk, Hr, Hn, Hq, Ht.
    eexists w', (_ :: evs). rewrite Hs.
    split; [reflexivity|].
    split; [exact Hc|]. split; [exact Hl|]. split; [exact Hk|]. split; [exact Hr|].
    split. { rewrite Hn, length_app. simpl. lia. }
    split. { rewrite Hq. lia. }
    split. { rewrite Ht, <- app_assoc. reflexivity. }
    split. { simpl. rewrite Hlen. reflexivity. }
    simpl. exact Hall.
Qed.

Lemma tame_spawn_workers (env : Env) (config : ScalingConfig) (n : nat) :
  tame (spawn_workers env config n).
Proof.
  induction n as [|n IH]; simpl; [apply tame_ret|].
  apply tame_bind; [intros w; exact I|intros name].
  apply tame_bind.
  - intros w. unfold Popen_new. destruct (popen env (queries w)); exact I.
  - intros pid. apply tame_bind; [apply tame_modify|intros _; exact IH].
Qed.

Lemma log_returns (m : LogMsg) : always_returns (log m).
Proof. intros w. exists tt. reflexivity. Qed.

Lemma scale_up_returns (env : Env) (config : ScalingConfig) (count : Z) :
  always_returns (scale_up env config count).
Proof.
  intros w. unfold scale_up, bind at 1, log, modify.
  apply catch_all_returns; [|intros e; apply log_returns].
  apply tame_bind; [apply tame_spawn_workers|intros _].
  apply tame_bind; [apply tame_gets|intros t].
  apply tame_bind; [apply tame_modify|intros _].
  apply tame_bind; [apply tame_floordiv|intros secs; apply tame_sleep].
Qed.

Lemma scale_up_ret (env : Env) (config : ScalingConfig) (count : Z) (w : World) :
  scale_up env config count w = (Ret tt, snd (scale_up env config count w)).
Proof.
  destruct (scale_up_returns env config count w) as [[] H].
  destruct (scale_up env config count w) as [o w']. simpl in *. subst o. reflexivity.
Qed.

Ltac scale_up_leaf Hcount :=
  split; [reflexivity|];
  split; [unfold usec in *; lia|];
  split; [reflexivity|];
  split; [reflexivity|];
  split; [reflexivity|];
  split; [rewrite <- !app_assoc; reflexivity|];
  rewrite count_spawns_app, Hcount; unfold count_spawns; simpl; lia.

(** A [scale_up] whose launches all succeed. *)
Lemma scale_up_ok (env : Env) (config : ScalingConfig) (count : Z) (w : World) :
  launches_ok env (queries w) (Z.to_nat count) = true ->
  exists w' evs,
    scale_up env config count w = (Ret tt, w') /\
    last_scale_time w' = clock w /\
    clock w <= clock w' <= clock w + 2 * usec /\
    lock w' = lock w /\
    running w' = running w /\
    length (procs w') = (length (procs w) + Z.to_nat count)%nat /\
    trace w' = trace w ++ ELog (LogScalingUp count) :: evs /\
    count_spawns evs = Z.to_nat count.
Proof.
  intros H.
  destruct (spawn_workers_ok env config (Z.to_nat count)
              (emit (ELog (LogScalingUp count)) w) H)
    as (w1 & evs & Hs & Hc & Hl & Hk & Hr & Hn & Hq & Ht & Hlen & Hall).
  simpl in Hc, Hl, Hk, Hr, Hn, Hq, Ht.
  assert (Hcount : count_spawns evs = Z.to_nat count)
    by (rewrite count_spawns_all by exact Hall; exact Hlen).
  unfold scale_up, bind at 1, log, modify, try_except, bind at 1.
  rewrite Hs. unfold bind at 1, now, gets. unfold bind at 1.
  unfold bind, floordiv.
  destruct (Z.eqb_spec count 0) as [Hz|Hnz].
  - unfold raise. eexists _, (evs ++ [_]). split; [reflexivity|]. simpl.
    rewrite Hc, Hk, Hr, Hn, Ht. scale_up_leaf Hcount.
  - unfold ret, sleep.
    destruct (Z.ltb_spec (Z.min 2 (worker_startup_time config / count)) 0) as [Hneg|Hpos].
    + unfold raise. eexists _, (evs ++ [_]). split; [reflexivity|]. simpl.
      rewrite Hc, Hk, Hr, Hn, Ht. scale_up_leaf Hcount.
    + unfold modify. eexists _, (evs ++ [_]). split; [reflexivity|]. simpl.
      rewrite Hc, Hk, Hr, Hn, Ht. scale_up_leaf Hcount.
Qed.

(* ===================================================================== *)
(** ** One iteration of the control loop *)

(** The iteration whose health check finds too few workers: when
    [scale_workers] has returned, what is left is the floor [scale_up]
    and the sleep. *)
Lemma run_iteration_floor (env : Env) (config : ScalingConfig)
    (w w1 w2 w3 : World) (q c : Z) :
  get_queue_length env "celery" w = (Ret q, w1) ->
  get_active_workers env w1 = (Ret c, w2) ->
  scale_workers env config q (emit (ELog (LogStatus q c)) w2) = (Ret tt, w3) ->
  c < min_workers config ->
  run_iteration env config w =
    sleep (check_interval config)
      (snd (scale_up env config (min_workers config - c)
              (emit (ELog (LogBelowMinimum c (min_workers config))) w3))).
Proof.
  intros Hq Hc Hs Hlt.
  unfold run_iteration, bind at 1, try_except, bind at 1. rewrite Hq.
  unfold bind at 1. rewrite Hc.
  unfold bind at 1, log, modify. unfold bind at 1. rewrite Hs.
  destruct (Z.ltb_spec c (min_workers config)) as [_|Hge]; [|lia].
  unfold bind at 1.
  rewrite (scale_up_ret env config (min_workers config - c)). reflexivity.
Qed.




(** In that iteration [scale_workers] itself does nothing, the cooldown
    having just begun; the three launches are those of the health check. *)
Example floor_check_during_cooldown :
  new_events world_cooling (snd (run_iteration calm_env default_config world_cooling))
  = [ELog (LogStatus 0 0); EAcquire; ERelease;
     ELog (LogBelowMinimum 0 3); ELog (LogScalingUp 3);
     ESpawn "celery_worker_host_d1b2c3d4" 0;
     ESpawn "celery_worker_host_f1b2c3d4" 1;
     ESpawn "celery_worker_host_h1b2c3d4" 2;
     ESleep 2; ESleep 10].
Proof. vm_compute. reflexivity. Qed.

(* --------------------------------------------------------------------- *)
(** *** [scale_up] and the cooldown *)

(** C10: every [scale_up] whose launch loop completes sets
    [last_scale_time] to the current time; this includes the [scale_up]
    of the health check of [run], after which [last_scale_time] is the
    time at which that check ran.  From then on [should_scale] answers
    false, for every desired and current count, until the cooldown period
    has gone by. *)
Theorem scale_up_restarts_the_cooldown (env : Env) (config : ScalingConfig) :
  (forall count w,
      launches_ok env (queries w) (Z.to_nat count) = true ->
      exists w',
        scale_up env config count w = (Ret tt, w') /\
        last_scale_time w' = clock w) /\
  (forall w w1 w2 w3 q c,
      get_queue_length env "celery" w = (Ret q, w1) ->
      get_active_workers env w1 = (Ret c, w2) ->
      scale_workers env config q (emit (ELog (LogStatus q c)) w2) = (Ret tt, w3) ->
      c < min_workers config ->
      launches_ok env (queries w3) (Z.to_nat (min_workers config - c)) = true ->
      last_scale_time (snd (run_iteration env config w)) = clock w3) /\
  (forall w desired current,
      0 <= clock w - last_scale_time w < cooldown_period config * usec ->
      should_scale config desired current w = (Ret false, w)).
Proof.
  split; [|split].
  - intros count w Hok.
    destruct (scale_up_ok env config count w Hok) as (w' & evs & Hup & Hl & _).
    exists w'. split; assumption.
  - intros w w1 w2 w3 q c Hq Hc Hs Hlt Hok.
    rewrite (run_iteration_floor env config w w1 w2 w3 q c Hq Hc Hs Hlt).
    destruct (scale_up_ok env config (min_workers config - c)
                (emit (ELog (LogBelowMinimum c (min_workers config))) w3) Hok)
      as (w4 & evs & Hup & Hl & _).
    rewrite Hup. simpl in Hl. simpl.
    unfold sleep. destruct (check_interval config <? 0); simpl; exact Hl.
  - intros w desired current Hw.
    apply should_scale_cooling. apply timedelta_seconds_lt.
    assert (H := Z.mod_le (clock w - last_scale_time w) day_usec ltac:(lia)
                   ltac:(unfold day_usec, usec; lia)).
    lia.
Qed.

Lemma scale_up_restarts_the_cooldown_witness :
  launches_ok calm_env (queries world_cooling) (Z.to_nat 3) = true /\
  (exists w', scale_up calm_env default_config 3 world_cooling = (Ret tt, w') /\
              last_scale_time w' = clock world_cooling) /\
  0 <= clock (snd (run_iteration calm_env default_config world_cooling))
       - last_scale_time (snd (run_iteration calm_env default_config world_cooling))
    < cooldown_period default_config * usec /\
  should_scale default_config 48 3 (snd (run_iteration calm_env default_config world_cooling))
  = (Ret false, snd (run_iteration calm_env default_config world_cooling)).
Proof.
  assert (Hok : launches_ok calm_env (queries world_cooling) (Z.to_nat 3) = true)
    by (vm_compute; reflexivity).
  assert (Hw : 0 <= clock (snd (run_iteration calm_env default_config world_cooling))
                    - last_scale_time (snd (run_iteration calm_env default_config world_cooling))
               < cooldown_period default_config * usec)
    by (vm_compute; split; congruence).
  split; [exact Hok|].
  split; [exact (proj1 (scale_up_restarts_the_cooldown calm_env default_config)
                   3 world_cooling Hok)|].
  split; [exact Hw|].
  exact (proj2 (proj2 (scale_up_restarts_the_cooldown calm_env default_config))
           _ 48 3 Hw).
Defined.

(* ===================================================================== *)
(** ** Further properties of the policy *)

(** X1: [get_active_workers] never raises: it answers the size of the
    broker's census when there is one, and the number of tracked workers
    when the census is [None] or the inspection raises; the answer is
    never negative and the worker map is not touched. *)
Theorem get_active_workers_falls_back (env : Env) (w : World) :
  fst (get_active_workers env w) =
    Ret (match inspect_active env (queries w) with
         | InspectActive n => Z.of_nat n
         | InspectNone | InspectRaises _ => Z.of_nat (length (worker_processes w))
         end)
  /\ worker_processes (snd (get_active_workers env w)) = worker_processes w
  /\ forall c, fst (get_active_workers env w) = Ret c -> 0 <= c.
Proof.
  unfold get_active_workers, try_except, bind, inspect_active_call, len_worker_processes.
  destruct (inspect_active env (queries w)) as [n| |e]; simpl;
    (split; [reflexivity|split; [reflexivity|intros c [= <-]; lia]]).
Qed.

(** X2: whatever the queue length, the desired worker count is at least
    [min_workers]; with [min_workers <= max_workers] it is at most
    [max_workers] as well. *)
Theorem desired_workers_within_bounds (config : ScalingConfig) (q d : Z) (w w' : World) :
  desired_workers config q w = (Ret d, w') ->
  min_workers config <= d /\
  (min_workers config <= max_workers config -> d <= max_workers config).
Proof.
  unfold desired_workers, floordiv, bind.
  destruct (tasks_per_worker config =? 0); [discriminate|].
  intros [= <- _]. lia.
Qed.

Lemma desired_workers_within_bounds_witness :
  desired_workers default_config 47 fresh_world = (Ret 48, fresh_world) /\
  min_workers default_config <= 48 /\
  (min_workers default_config <= max_workers default_config ->
   48 <= max_workers default_config).
Proof.
  assert (H : desired_workers default_config 47 fresh_world = (Ret 48, fresh_world))
    by reflexivity.
  split; [exact H|].
  exact (desired_workers_within_bounds default_config 47 48 fresh_world fresh_world H).
Defined.

(** X3: with a positive [tasks_per_worker] a longer queue never asks for
    fewer workers. *)
Theorem desired_workers_monotone (config : ScalingConfig) (q1 q2 d1 d2 : Z)
    (w w1 w2 : World) :
  0 < tasks_per_worker config ->
  q1 <= q2 ->
  desired_workers config q1 w = (Ret d1, w1) ->
  desired_workers config q2 w = (Ret d2, w2) ->
  d1 <= d2.
Proof.
  intros Ht Hq.
  rewrite !desired_workers_eq by lia.
  intros [= <- _] [= <- _].
  assert (H := Z.div_le_mono q1 q2 (tasks_per_worker config) Ht Hq). lia.
Qed.

Lemma desired_workers_monotone_witness :
  0 < tasks_per_worker config_two_tasks /\ 5 <= 9 /\
  desired_workers config_two_tasks 5 fresh_world = (Ret 3, fresh_world) /\
  desired_workers config_two_tasks 9 fresh_world = (Ret 5, fresh_world) /\
  3 <= 5.
Proof.
  assert (Ht : 0 < tasks_per_worker config_two_tasks) by (simpl; lia).
  assert (Hq : 5 <= 9) by lia.
  assert (H1 : desired_workers config_two_tasks 5 fresh_world = (Ret 3, fresh_world))
    by reflexivity.
  assert (H2 : desired_workers config_two_tasks 9 fresh_world = (Ret 5, fresh_world))
    by reflexivity.
  split; [exact Ht|]. split; [exact Hq|]. split; [exact H1|]. split; [exact H2|].
  exact (desired_workers_monotone config_two_tasks 5 9 3 5 _ _ _ Ht Hq H1 H2).
Defined.

(** X4: [should_scale] never answers true for a difference of less than
    two workers, whatever the clock; in particular not when the desired
    count is the current one. *)
Theorem should_scale_needs_two (config : ScalingConfig) (desired current : Z)
    (w w' : World) :
  should_scale config desired current w = (Ret true, w') ->
  2 <= Z.abs (desired - current).
Proof.
  intros H.
  destruct (Z.lt_ge_cases (timedelta_seconds (clock w - last_scale_time w))
              (cooldown_period config)) as [Hcool|Hready].
  - rewrite should_scale_cooling in H by exact Hcool. discriminate H.
  - rewrite should_scale_ready in H by exact Hready.
    destruct (PyFloat.int_of_int_times current PyFloat.lit_0_2) as [fifth|];
      [|discriminate H].
    injection H as Hb _. apply Z.leb_le in Hb. lia.
Qed.

Lemma should_scale_needs_two_witness :
  should_scale default_config 15 13 fresh_world = (Ret true, fresh_world) /\
  2 <= Z.abs (15 - 13).
Proof.
  assert (H : should_scale default_config 15 13 fresh_world = (Ret true, fresh_world))
    by reflexivity.
  split; [exact H|].
  exact (should_scale_needs_two default_config 15 13 fresh_world fresh_world H).
Defined.

(** X5: when the seconds part of [now - last_scale_time] has reached the
    cooldown period and the current count is below 65536, [should_scale]
    answers exactly whether |desired - current| >= max(2, current // 5),
    and changes nothing. *)
Theorem should_scale_decides_deadband (config : ScalingConfig) (desired current : Z)
    (w : World) :
  cooldown_period config <= timedelta_seconds (clock w - last_scale_time w) ->
  0 <= current < checked_counts ->
  should_scale config desired current w =
    (Ret (Z.max 2 (current / 5) <=? Z.abs (desired - current)), w).
Proof.
  intros Hready Hc.
  rewrite should_scale_ready by exact Hready.
  rewrite int_times_0_2_floor by exact Hc. reflexivity.
Qed.

Lemma should_scale_decides_deadband_witness :
  cooldown_period default_config
    <= timedelta_seconds (clock fresh_world - last_scale_time fresh_world) /\
  0 <= 10 < checked_counts /\
  should_scale default_config 11 10 fresh_world =
    (Ret (Z.max 2 (10 / 5) <=? Z.abs (11 - 10)), fresh_world) /\
  (Z.max 2 (10 / 5) <=? Z.abs (11 - 10)) = false.
Proof.
  assert (H1 : cooldown_period default_config
               <= timedelta_seconds (clock fresh_world - last_scale_time fresh_world))
    by (vm_compute; congruence).
  assert (H2 : 0 <= 10 < checked_counts) by (unfold checked_counts; lia).
  split; [exact H1|]. split; [exact H2|].
  split; [|reflexivity].
  exact (should_scale_decides_deadband default_config 11 10 fresh_world H1 H2).
Defined.

(** X6: with a cooldown period of a day or more [should_scale] never
    answers true: the seconds part of a timedelta stays below 86400. *)
Theorem should_scale_never_with_long_cooldown (config : ScalingConfig)
    (desired current : Z) (w : World) :
  86400 <= cooldown_period config ->
  should_scale config desired current w = (Ret false, w).
Proof.
  intros H. apply should_scale_cooling. unfold timedelta_seconds.
  assert (Hm := Z.mod_pos_bound (clock w - last_scale_time w) day_usec
                  ltac:(unfold day_usec, usec; lia)).
  assert (Hd : (clock w - last_scale_time w) mod day_usec / usec < 86400).
  { apply Z.div_lt_upper_bound; unfold day_usec, usec in *; lia. }
  lia.
Qed.

Lemma should_scale_never_with_long_cooldown_witness :
  86400 <= cooldown_period (mkConfig 3 50 1 10 PyFloat.lit_0_8 PyFloat.lit_0_3
                              86400 30 "celery_worker") /\
  should_scale (mkConfig 3 50 1 10 PyFloat.lit_0_8 PyFloat.lit_0_3
                  86400 30 "celery_worker") 48 3 world_one_day_later
  = (Ret false, world_one_day_later).
Proof.
  assert (H : 86400 <= cooldown_period (mkConfig 3 50 1 10 PyFloat.lit_0_8 PyFloat.lit_0_3
                                          86400 30 "celery_worker")) by (simpl; lia).
  split; [exact H|].
  exact (should_scale_never_with_long_cooldown _ 48 3 world_one_day_later H).
Defined.

(* ===================================================================== *)
(** ** Further properties of [scale_up] *)

Lemma spawn_workers_fails (env : Env) (config : ScalingConfig) (e : PyException)
    (k n : nat) (w : World) :
  (k < n)%nat ->
  launches_ok env (queries w) k = true ->
  popen env (queries w + 2 * k + 1) = SpawnRaises e ->
  exists w' evs,
    spawn_workers env config n w = (Raise (Exc e), w') /\
    clock w' = clock w /\
    last_scale_time w' = last_scale_time w /\
    length (procs w') = (length (procs w) + k)%nat /\
    trace w' = trace w ++ evs /\
    length evs = k /\
    forallb is_spawn_event evs = true.
Proof.
  revert n w. induction k as [|k IH]; intros n w Hlt Hok Hbad.
  - destruct n as [|n]; [lia|].
    replace (queries w + 2 * 0 + 1)%nat with (S (queries w)) in Hbad by lia.
    cbn [spawn_workers]. unfold bind at 1. unfold generate_worker_name.
    unfold bind at 1. unfold Popen_new. cbn [queries next_query]. rewrite Hbad.
    eexists _, []. split; [reflexivity|]. simpl.
    rewrite app_nil_r, Nat.add_0_r. repeat split; reflexivity.
  - destruct n as [|n]; [lia|].
    simpl in Hok. apply andb_prop in Hok as [Hp Hrest].
    destruct (popen env (S (queries w))) as [d kd den|e0] eqn:Hpop; [|discriminate Hp].
    cbn [spawn_workers]. unfold bind at 1. unfold generate_worker_name.
    unfold bind at 1. unfold Popen_new. cbn [queries next_query]. rewrite Hpop.
    unfold bind at 1. unfold dict_store, modify.
    match goal with
    | |- context [spawn_workers env config n ?w1] =>
        destruct (IH n w1) as (w' & evs & Hs & Hc & Hl & Hn & Ht & Hlen & Hall);
        [lia|exact Hrest| |]
    end.
    { simpl. rewrite <- Hbad. f_equal. lia. }
    simpl in Hc, Hl, Hn, Ht.
    eexists w', (_ :: evs). rewrite Hs.
    split; [reflexivity|].
    split; [exact Hc|]. split; [exact Hl|].
    split. { rewrite Hn, length_app. simpl. lia. }
    split. { rewrite Ht, <- app_assoc. reflexivity. }
    split. { simpl. rewrite Hlen. reflexivity. }
    simpl. exact Hall.
Qed.

(** X7: a scaler is not held back by the cooldown after its
    construction: [__init__] dates [last_scale_time] one cooldown period
    back, so a call of [should_scale] made [e] microseconds after the
    construction, with the cooldown period and [e] together short of a
    day, decides by the deadband alone. *)
Theorem fresh_scaler_may_scale (config : ScalingConfig) (t e desired current : Z) :
  0 <= cooldown_period config ->
  0 <= e ->
  cooldown_period config * usec + e < day_usec ->
  0 <= current < checked_counts ->
  should_scale config desired current (set_clock (t + e) (init config t)) =
    (Ret (Z.max 2 (current / 5) <=? Z.abs (desired - current)),
     set_clock (t + e) (init config t)).
Proof.
  intros Hc He Hday Hcur.
  rewrite should_scale_ready.
  - rewrite int_times_0_2_floor by exact Hcur. reflexivity.
  - unfold init, timedelta_seconds. simpl.
    replace (t + e - (t - cooldown_period config * usec))
      with (cooldown_period config * usec + e) by lia.
    rewrite Z.mod_small by (unfold usec in *; lia).
    rewrite Z.div_add_l by (unfold usec; lia).
    assert (0 <= e / usec) by (apply Z.div_pos; unfold usec; lia). lia.
Qed.

Lemma fresh_scaler_may_scale_witness :
  0 <= cooldown_period default_config /\
  0 <= 2000000 /\
  cooldown_period default_config * usec + 2000000 < day_usec /\
  0 <= 3 < checked_counts /\
  should_scale default_config 48 3
    (set_clock (1700000000000000 + 2000000) (init default_config 1700000000000000)) =
    (Ret true,
     set_clock (1700000000000000 + 2000000) (init default_config 1700000000000000)).
Proof.
  assert (H1 : 0 <= cooldown_period default_config) by (simpl; lia).
  assert (H2 : 0 <= 2000000) by lia.
  assert (H3 : cooldown_period default_config * usec + 2000000 < day_usec)
    by (vm_compute; reflexivity).
  assert (H4 : 0 <= 3 < checked_counts) by (unfold checked_counts; lia).
  split; [exact H1|]. split; [exact H2|]. split; [exact H3|]. split; [exact H4|].
  exact (fresh_scaler_may_scale default_config 1700000000000000 2000000 48 3 H1 H2 H3 H4).
Defined.

(** X8: [scale_up] always returns.  When launch number [k] (counted from
    0) is the first to fail, the [k] workers started before it stay
    started, the failure is logged, and [last_scale_time] is left as it
    was: a [scale_up] cut short does not restart the cooldown. *)
Theorem scale_up_cut_short (env : Env) (config : ScalingConfig) (e : PyException)
    (count : Z) (k : nat) (w : World) :
  (k < Z.to_nat count)%nat ->
  launches_ok env (queries w) k = true ->
  popen env (queries w + 2 * k + 1) = SpawnRaises e ->
  exists w' evs,
    scale_up env config count w = (Ret tt, w') /\
    last_scale_time w' = last_scale_time w /\
    clock w' = clock w /\
    length (procs w') = (length (procs w) + k)%nat /\
    trace w' = trace w ++ ELog (LogScalingUp count) :: evs ++ [ELog (LogScaleUpFailed e)] /\
    count_spawns evs = k.
Proof.
  intros Hlt Hok Hbad.
  destruct (spawn_workers_fails env config e k (Z.to_nat count)
              (emit (ELog (LogScalingUp count)) w) Hlt Hok Hbad)
    as (w1 & evs & Hs & Hc & Hl & Hn & Ht & Hlen & Hall).
  simpl in Hc, Hl, Hn, Ht.
  exists (emit (ELog (LogScaleUpFailed e)) w1), evs.
  unfold scale_up, bind at 1, log, modify, try_except, bind at 1.
  rewrite Hs.
  split; [reflexivity|]. simpl.
  split; [exact Hl|]. split; [exact Hc|]. split; [exact Hn|].
  split; [rewrite Ht, <- !app_assoc; reflexivity|].
  rewrite count_spawns_all by exact Hall. exact Hlen.
Qed.

Lemma scale_up_cut_short_witness :
  (1 < Z.to_nat 3)%nat /\
  launches_ok flaky_env (queries world_cooling) 1 = true /\
  popen flaky_env (queries world_cooling + 2 * 1 + 1) = SpawnRaises OSError /\
  exists w' evs,
    scale_up flaky_env default_config 3 world_cooling = (Ret tt, w') /\
    last_scale_time w' = last_scale_time world_cooling /\
    clock w' = clock world_cooling /\
    length (procs w') = (length (procs world_cooling) + 1)%nat /\
    trace w' = trace world_cooling
               ++ ELog (LogScalingUp 3) :: evs ++ [ELog (LogScaleUpFailed OSError)] /\
    count_spawns evs = 1%nat.
Proof.
  assert (H1 : (1 < Z.to_nat 3)%nat) by (vm_compute; lia).
  assert (H2 : launches_ok flaky_env (queries world_cooling) 1 = true) by reflexivity.
  assert (H3 : popen flaky_env (queries world_cooling + 2 * 1 + 1) = SpawnRaises OSError)
    by reflexivity.
  split; [exact H1|]. split; [exact H2|]. split; [exact H3|].
  exact (scale_up_cut_short flaky_env default_config OSError 3 1 world_cooling H1 H2 H3).
Defined.

Lemma dict_set_fresh (k : string) (v : nat) (d : Dict) :
  dict_get k d = None -> dict_set k v d = d ++ [(k, v)].
Proof.
  induction d as [|[k' v'] d IH]; simpl; [reflexivity|].
  destruct (String.eqb k k'); [discriminate|].
  intros H. rewrite IH by exact H. reflexivity.
Qed.

Lemma spawn_workers_plan (env : Env) (config : ScalingConfig) (n : nat) (w w' : World) :
  spawn_workers env config n w = (Ret tt, w') ->
  names_fresh (worker_processes w)
    (launch_plan env config (queries w) (length (procs w)) n) = true ->
  worker_processes w' =
    worker_processes w ++ launch_plan env config (queries w) (length (procs w)) n.
Proof.
  revert w. induction n as [|n IH]; intros w Hs Hf.
  - injection Hs as <-. simpl. rewrite app_nil_r. reflexivity.
  - cbn [spawn_workers] in Hs. unfold bind at 1 in Hs. unfold generate_worker_name in Hs.
    unfold bind at 1 in Hs. unfold Popen_new in Hs. cbn [queries next_query] in Hs.
    destruct (popen env (S (queries w))) as [d kd den|e]; [|discriminate Hs].
    unfold bind at 1 in Hs. unfold dict_store, modify in Hs.
    cbn [launch_plan names_fresh] in Hf. fold (worker_name_at env config (queries w)) in Hs.
    destruct (dict_get (worker_name_at env config (queries w)) (worker_processes w))
      eqn:Hget; [discriminate Hf|].
    apply IH in Hs.
    + rewrite Hs. simpl. rewrite dict_set_fresh by exact Hget.
      rewrite length_app, <- app_assoc. simpl.
      replace (length (procs w) + 1)%nat with (S (length (procs w))) by lia.
      reflexivity.
    + simpl. rewrite dict_set_fresh by exact Hget.
      rewrite length_app. simpl.
      replace (length (procs w) + 1)%nat with (S (length (procs w))) by lia.
      exact Hf.
Qed.

(** X9: a [scale_up] whose launches succeed and whose generated names
    collide neither with a tracked name nor with each other appends one
    entry per launch to the worker map, in launch order, each with the
    reference of the process just started; the entries already there
    keep their places. *)
Theorem scale_up_appends_in_order (env : Env) (config : ScalingConfig)
    (count : Z) (w : World) :
  launches_ok env (queries w) (Z.to_nat count) = true ->
  names_fresh (worker_processes w)
    (launch_plan env config (queries w) (length (procs w)) (Z.to_nat count)) = true ->
  worker_processes (snd (scale_up env config count w)) =
    worker_processes w
    ++ launch_plan env config (queries w) (length (procs w)) (Z.to_nat count).
Proof.
  intros Hok Hf.
  destruct (spawn_workers_ok env config (Z.to_nat count)
              (emit (ELog (LogScalingUp count)) w) Hok)
    as (w1 & evs & Hs & _).
  assert (Hplan := spawn_workers_plan env config _ _ _ Hs Hf). simpl in Hplan.
  unfold scale_up, bind at 1, log, modify, try_except, bind at 1.
  rewrite Hs. unfold bind at 1, now, gets. unfold bind at 1, modify.
  unfold bind, floordiv.
  destruct (count =? 0); [exact Hplan|].
  unfold ret, sleep. destruct (_ <? 0); exact Hplan.
Qed.

Lemma scale_up_appends_in_order_witness :
  launches_ok calm_env (queries world_two_workers) (Z.to_nat 2) = true /\
  names_fresh (worker_processes world_two_workers)
    (launch_plan calm_env default_config (queries world_two_workers)
       (length (procs world_two_workers)) (Z.to_nat 2)) = true /\
  worker_processes (snd (scale_up calm_env default_config 2 world_two_workers)) =
    [("celery_worker_host_aaaaaaaa"%string, 0%nat);
     ("celery_worker_host_bbbbbbbb"%string, 1%nat);
     ("celery_worker_host_a1b2c3d4"%string, 2%nat);
     ("celery_worker_host_c1b2c3d4"%string, 3%nat)].
Proof.
  assert (H1 : launches_ok calm_env (queries world_two_workers) (Z.to_nat 2) = true)
    by reflexivity.
  assert (H2 : names_fresh (worker_processes world_two_workers)
                 (launch_plan calm_env default_config (queries world_two_workers)
                    (length (procs world_two_workers)) (Z.to_nat 2)) = true)
    by (vm_compute; reflexivity).
  split; [exact H1|]. split; [exact H2|].
  exact (scale_up_appends_in_order calm_env default_config 2 world_two_workers H1 H2).
Defined.

(* ===================================================================== *)
(** ** Further properties of [scale_down] *)

Lemma same_table_refl (w : World) : same_table w w.
Proof. intros worker H. exact H. Qed.

Lemma same_table_trans (a b c : World) : same_table a b -> same_table b c -> same_table a c.
Proof. intros H1 H2 worker H. auto. Qed.

Lemma same_table_procs (w w' : World) : procs w' = procs w -> same_table w w'.
Proof. intros H worker. unfold signalable. rewrite H. auto. Qed.

Lemma signalable_set_proc (pid : nat) (p p' : Popen) (w : World) :
  procs w !! pid = Some p -> os_denied p' = os_denied p ->
  same_table w (set_proc pid p' w).
Proof.
  intros Hp Hd [name q]. unfold signalable. simpl.
  destruct (Nat.eq_dec q pid) as [->|Hne].
  - rewrite Hp, list_lookup_insert_eq by (eapply lookup_lt_Some; exact Hp).
    rewrite Hd. auto.
  - rewrite list_lookup_insert_ne by congruence. auto.
Qed.

Lemma os_denied_poll (t : Z) (p : Popen) : os_denied (poll t p) = os_denied p.
Proof. unfold poll. destruct (pstate p); try reflexivity. destruct (_ <=? _); reflexivity. Qed.

Lemma os_denied_deliver (t : Z) (s : Signal) (p : Popen) :
  os_denied (deliver t s p) = os_denied p.
Proof.
  unfold deliver. destruct s, (pstate p); try reflexivity.
  - destruct (sigterm_delay p); reflexivity.
  - destruct (_ <=? _); reflexivity.
Qed.

Lemma same_table_send_signal (pid : nat) (s : Signal) :
  preserves same_table (send_signal pid s).
Proof.
  intros w. unfold send_signal.
  destruct (procs w !! pid) as [p|] eqn:Hp; [|apply same_table_refl].
  assert (H1 : same_table w (set_proc pid (poll (clock w) p) w))
    by (eapply signalable_set_proc; [exact Hp|apply os_denied_poll]).
  destruct (pstate (poll (clock w) p)); simpl; try exact H1;
    destruct (os_denied (poll (clock w) p)) eqn:Hden; simpl; try exact H1.
  - eapply same_table_trans; [exact H1|].
    eapply same_table_trans; [|apply same_table_procs; reflexivity].
    eapply signalable_set_proc.
    + apply lookup_set_proc_eq with (q := p). exact Hp.
    + apply os_denied_deliver.
  - eapply same_table_trans; [exact H1|].
    eapply same_table_trans; [|apply same_table_procs; reflexivity].
    eapply signalable_set_proc.
    + apply lookup_set_proc_eq with (q := p). exact Hp.
    + apply os_denied_deliver.
Qed.

Lemma same_table_wait_for (pid : nat) (timeout : Z) :
  preserves same_table (wait_for pid timeout).
Proof.
  intros w. unfold wait_for.
  destruct (procs w !! pid) as [p|] eqn:Hp; [|apply same_table_refl].
  destruct (pstate p); simpl; try (apply same_table_procs; reflexivity).
  destruct (_ <=? _); simpl; [|apply same_table_procs; reflexivity].
  eapply same_table_trans; [|apply same_table_procs; reflexivity].
  eapply signalable_set_proc; [exact Hp|reflexivity].
Qed.

Lemma same_table_emit (e : Event) : preserves same_table (modify (emit e)).
Proof. intros w. apply same_table_procs. reflexivity. Qed.

Lemma same_table_terminate (pid : nat) : preserves same_table (terminate pid).
Proof.
  apply (preserves_bind _ same_table_trans);
    [apply same_table_emit|intros _; apply same_table_send_signal].
Qed.

Lemma same_table_kill (pid : nat) : preserves same_table (kill pid).
Proof.
  apply (preserves_bind _ same_table_trans);
    [apply same_table_emit|intros _; apply same_table_send_signal].
Qed.

Lemma same_table_wait (pid : nat) (timeout : Z) : preserves same_table (wait pid timeout).
Proof.
  apply (preserves_bind _ same_table_trans);
    [apply same_table_emit|intros _; apply same_table_wait_for].
Qed.

(** A signal to a process that may be signalled goes through. *)
Lemma terminate_goes_through (name : string) (pid : nat) (w : World) :
  signalable w (name, pid) = true -> fst (terminate pid w) = Ret tt.
Proof.
  unfold signalable, terminate, bind, modify, send_signal. simpl.
  destruct (procs w !! pid) as [p|]; [|discriminate].
  intros H. rewrite <- (os_denied_poll (clock w)) in H.
  destruct (pstate (poll (clock w) p)); try reflexivity;
    destruct (os_denied (poll (clock w) p)); try reflexivity; discriminate H.
Qed.

Lemma kill_goes_through (name : string) (pid : nat) (w : World) :
  signalable w (name, pid) = true -> fst (kill pid w) = Ret tt.
Proof.
  unfold signalable, kill, bind, modify, send_signal. simpl.
  destruct (procs w !! pid) as [p|]; [|discriminate].
  intros H. rewrite <- (os_denied_poll (clock w)) in H.
  destruct (pstate (poll (clock w) p)); try reflexivity;
    destruct (os_denied (poll (clock w) p)); try reflexivity; discriminate H.
Qed.

Lemma wait_returns_or_times_out (name : string) (pid : nat) (timeout : Z) (w : World) :
  signalable w (name, pid) = true ->
  (exists c, fst (wait pid timeout w) = Ret c) \/
  fst (wait pid timeout w) = Raise (Exc TimeoutExpired).
Proof.
  unfold signalable, wait, bind, modify, wait_for. simpl.
  destruct (procs w !! pid) as [p|]; [|discriminate]. intros _.
  destruct (pstate p); [right; reflexivity| |left; eexists; reflexivity].
  destruct (_ <=? _); [left; eexists; reflexivity|right; reflexivity].
Qed.

Lemma clock_send_signal (pid : nat) (s : Signal) (w : World) :
  clock (snd (send_signal pid s w)) = clock w.
Proof.
  unfold send_signal. destruct (procs w !! pid) as [p|]; [|reflexivity].
  destruct (pstate (poll (clock w) p)); try reflexivity;
    destruct (os_denied (poll (clock w) p)); reflexivity.
Qed.

Lemma clock_terminate (pid : nat) (w : World) : clock (snd (terminate pid w)) = clock w.
Proof.
  unfold terminate, bind, modify. simpl.
  assert (H := clock_send_signal pid SIGTERM (emit (ECall pid MTerminate) w)).
  destruct (send_signal pid SIGTERM (emit (ECall pid MTerminate) w)) as [[[]|r|] w1];
    exact H.
Qed.

Lemma clock_kill (pid : nat) (w : World) : clock (snd (kill pid w)) = clock w.
Proof.
  unfold kill, bind, modify. simpl.
  assert (H := clock_send_signal pid SIGKILL (emit (ECall pid MKill) w)).
  destruct (send_signal pid SIGKILL (emit (ECall pid MKill) w)) as [[[]|r|] w1];
    exact H.
Qed.

Lemma clock_wait (pid : nat) (timeout : Z) (w : World) :
  0 <= timeout ->
  clock w <= clock (snd (wait pid timeout w)) <= clock w + timeout * usec.
Proof.
  intros Ht. unfold wait, bind, modify, wait_for. simpl.
  destruct (procs w !! pid) as [p|]; simpl; [|unfold usec; lia].
  destruct (pstate p) as [|t c|c]; simpl; try (unfold usec; lia).
  destruct (Z.leb_spec t (clock w + timeout * usec)); simpl; unfold usec in *; lia.
Qed.

Lemma dict_del_head (name : string) (pid : nat) (rest : Dict) :
  dict_del name ((name, pid) :: rest) = Some rest.
Proof. simpl. rewrite String.eqb_refl. reflexivity. Qed.

Lemma tame_terminate_one (worker : string * nat) : tame (terminate_one worker).
Proof.
  destruct worker as [name pid]. unfold terminate_one.
  apply tame_bind; [apply tame_terminate|intros _].
  apply tame_bind.
  - apply tame_try_except.
    + apply tame_bind; [apply tame_wait|intros _; apply tame_ret].
    + intros e h He. destruct e; try discriminate He.
      injection He as <-. apply tame_kill.
  - intros _ w. unfold dict_delete. destruct (dict_del name (worker_processes w)); exact I.
Qed.

(** X12: [scale_down] always returns: whatever goes wrong while a worker
    is stopped is logged and not passed on, and it never blocks. *)
Theorem scale_down_always_returns (count : Z) (w : World) :
  fst (scale_down count w) = Ret tt.
Proof.
  assert (H : always_returns (scale_down count)).
  { intros w0. unfold scale_down, bind at 1, log, modify.
    apply catch_all_returns; [|intros e; apply log_returns].
    apply tame_bind; [apply tame_gets|intros items].
    apply tame_bind; [apply tame_for_each; apply tame_terminate_one|intros _].
    apply tame_bind; [apply tame_gets|intros t; apply tame_modify]. }
  destruct (H w) as [[] Hr]. exact Hr.
Qed.

(** X10: [scale_up] always returns: a failing launch, a zero count in
    the division and a negative sleep are all caught and logged. *)
Theorem scale_up_always_returns (env : Env) (config : ScalingConfig) (count : Z)
    (w : World) :
  fst (scale_up env config count w) = Ret tt.
Proof. destruct (scale_up_returns env config count w) as [[] H]. exact H. Qed.

(* ===================================================================== *)
(** ** The lock around [scale_workers] *)

Ltac lock_prim :=
  intros w;
  repeat first
    [ progress cbv beta iota delta
        [generate_worker_name Popen_new inspect_active_call redis_llen sleep floordiv
         int_times_0_2 dict_store dict_delete len_worker_processes
         modify raise ret gets now]
    | match goal with
      | |- context [match ?x with _ => _ end] => destruct x
      end ];
  simpl;
  first [ apply leaves_lock_quiet; reflexivity
        | split; [reflexivity|]; eexists [_]; split; reflexivity ].

Lemma leaves_lock_generate_worker_name (env : Env) (config : ScalingConfig) :
  preserves leaves_lock (generate_worker_name env config).
Proof. lock_prim. Qed.

Lemma leaves_lock_Popen_new (env : Env) (name : string) :
  preserves leaves_lock (Popen_new env name).
Proof. lock_prim. Qed.

Lemma leaves_lock_inspect (env : Env) : preserves leaves_lock (inspect_active_call env).
Proof. lock_prim. Qed.

Lemma leaves_lock_redis_llen (env : Env) (name : string) :
  preserves leaves_lock (redis_llen env name).
Proof. lock_prim. Qed.

Lemma leaves_lock_sleep (secs : Z) : preserves leaves_lock (sleep secs).
Proof. lock_prim. Qed.

Lemma leaves_lock_floordiv (a b : Z) : preserves leaves_lock (floordiv a b).
Proof. lock_prim. Qed.

Lemma leaves_lock_int_times (c : Z) : preserves leaves_lock (int_times_0_2 c).
Proof. lock_prim. Qed.

Lemma leaves_lock_dict_store (name : string) (pid : nat) :
  preserves leaves_lock (dict_store name pid).
Proof. lock_prim. Qed.

Lemma leaves_lock_dict_delete (name : string) : preserves leaves_lock (dict_delete name).
Proof. lock_prim. Qed.

Lemma leaves_lock_stamp (t : Z) : preserves leaves_lock (modify (set_last_scale_time t)).
Proof. lock_prim. Qed.

Lemma leaves_lock_log (m : LogMsg) : preserves leaves_lock (log m).
Proof. apply leaves_lock_emit. reflexivity. Qed.

Ltac lock_steps :=
  repeat first
    [ apply (preserves_ret _ leaves_lock_refl)
    | apply (preserves_raise _ leaves_lock_refl)
    | apply (preserves_gets _ leaves_lock_refl)
    | apply leaves_lock_log
    | apply leaves_lock_sleep
    | apply leaves_lock_floordiv
    | apply leaves_lock_int_times
    | apply leaves_lock_stamp
    | apply leaves_lock_dict_store
    | apply leaves_lock_dict_delete
    | apply leaves_lock_generate_worker_name
    | apply leaves_lock_Popen_new
    | apply leaves_lock_inspect
    | apply leaves_lock_redis_llen
    | apply leaves_lock_send_signal
    | apply leaves_lock_wait_for
    | apply leaves_lock_emit; reflexivity
    | apply (preserves_bind _ leaves_lock_trans); [|intros ?]
    | apply (preserves_for_each _ leaves_lock_refl leaves_lock_trans); intros ? ].


Lemma leaves_lock_get_active_workers (env : Env) :
  preserves leaves_lock (get_active_workers env).
Proof.
  unfold get_active_workers, len_worker_processes.
  apply (preserves_try_except _ leaves_lock_trans).
  - apply (preserves_bind _ leaves_lock_trans); [apply leaves_lock_inspect|].
    intros [n|]; lock_steps.
  - intros e h [= <-]. lock_steps.
Qed.

Lemma leaves_lock_should_scale (config : ScalingConfig) (d c : Z) :
  preserves leaves_lock (should_scale config d c).
Proof.
  intros w. rewrite should_scale_state. apply leaves_lock_refl.
Qed.

Lemma leaves_lock_spawn_workers (env : Env) (config : ScalingConfig) (n : nat) :
  preserves leaves_lock (spawn_workers env config n).
Proof. induction n as [|n IH]; simpl; lock_steps. exact IH. Qed.

Lemma leaves_lock_scale_up (env : Env) (config : ScalingConfig) (count : Z) :
  preserves leaves_lock (scale_up env config count).
Proof.
  unfold scale_up, now. lock_steps.
  apply (preserves_try_except _ leaves_lock_trans).
  - lock_steps. apply leaves_lock_spawn_workers.
  - intros e h [= <-]. lock_steps.
Qed.

Lemma leaves_lock_terminate_one (worker : string * nat) :
  preserves leaves_lock (terminate_one worker).
Proof.
  destruct worker as [name pid]. unfold terminate_one, terminate, wait, kill.
  lock_steps.
  apply (preserves_try_except _ leaves_lock_trans).
  - lock_steps.
  - intros e h He. destruct e; try discriminate He. injection He as <-. lock_steps.
Qed.

Lemma leaves_lock_scale_down (count : Z) : preserves leaves_lock (scale_down count).
Proof.
  unfold scale_down, now. lock_steps.
  apply (preserves_try_except _ leaves_lock_trans).
  - lock_steps. apply leaves_lock_terminate_one.
  - intros e h [= <-]. lock_steps.
Qed.

Lemma tame_get_active_workers (env : Env) : tame (get_active_workers env).
Proof.
  intros w.
  unfold get_active_workers, try_except, bind, inspect_active_call, len_worker_processes.
  destruct (inspect_active env (queries w)); exact I.
Qed.


Lemma tame_should_scale (config : ScalingConfig) (d c : Z) : tame (should_scale config d c).
Proof.
  intros w. unfold should_scale, bind, now, gets, int_times_0_2. simpl.
  destruct (_ <? _); [exact I|].
  destruct (PyFloat.int_of_int_times c PyFloat.lit_0_2); exact I.
Qed.

Lemma tame_desired_workers (config : ScalingConfig) (q : Z) : tame (desired_workers config q).
Proof.
  unfold desired_workers. apply tame_bind; [apply tame_floordiv|intros ?; apply tame_ret].
Qed.

Lemma tame_always_returns {A} (m : M A) : always_returns m -> tame m.
Proof. intros H w. destruct (H w) as [a ->]. exact I. Qed.

Lemma scale_down_returns (count : Z) : always_returns (scale_down count).
Proof.
  intros w0. unfold scale_down, bind at 1, log, modify.
  apply catch_all_returns; [|intros e; apply log_returns].
  apply tame_bind; [apply tame_gets|intros items].
  apply tame_bind; [apply tame_for_each; apply tame_terminate_one|intros _].
  apply tame_bind; [apply tame_gets|intros t; apply tame_modify].
Qed.

(** [with self.lock: body], entered with the lock free. *)
Lemma with_lock_free {A} (body : M A) (w : World) :
  tame body -> preserves leaves_lock body ->
  lock w = false ->
  match fst (with_lock body w) with
  | Ret _ | Raise (Exc _) => True
  | _ => False
  end /\
  lock (snd (with_lock body w)) = false /\
  exists evs,
    trace (snd (with_lock body w)) = trace w ++ EAcquire :: evs ++ [ERelease] /\
    forallb (fun e => negb (is_lock_event e)) evs = true.
Proof.
  intros Ht Hl Hfree. unfold with_lock. rewrite Hfree.
  specialize (Ht (emit EAcquire (set_lock true w))).
  specialize (Hl (emit EAcquire (set_lock true w))).
  destruct (body (emit EAcquire (set_lock true w))) as [o w1].
  simpl in Ht, Hl. destruct Hl as (_ & evs & Htr & Hev). simpl in Htr.
  destruct o as [a|[e|c]|]; try contradiction; simpl;
    (split; [exact I|]; split; [reflexivity|];
     exists evs; split; [rewrite Htr, <- !app_assoc; reflexivity|exact Hev]).
Qed.

Lemma scale_workers_body_tame (env : Env) (config : ScalingConfig) (q : Z) :
  tame (current_workers <- get_active_workers env ;;
        desired <- desired_workers config q ;;
        go <- should_scale config desired current_workers ;;
        if negb go then ret tt
        else if current_workers <? desired
             then scale_up env config (desired - current_workers)
             else if desired <? current_workers
                  then scale_down (current_workers - desired)
                  else ret tt).
Proof.
  apply tame_bind; [apply tame_get_active_workers|intros c].
  apply tame_bind; [apply tame_desired_workers|intros d].
  apply tame_bind; [apply tame_should_scale|intros go].
  destruct (negb go); [apply tame_ret|].
  destruct (c <? d); [apply tame_always_returns, scale_up_returns|].
  destruct (d <? c); [apply tame_always_returns, scale_down_returns|apply tame_ret].
Qed.

Lemma scale_workers_body_leaves_lock (env : Env) (config : ScalingConfig) (q : Z) :
  preserves leaves_lock
       (current_workers <- get_active_workers env ;;
        desired <- desired_workers config q ;;
        go <- should_scale config desired current_workers ;;
        if negb go then ret tt
        else if current_workers <? desired
             then scale_up env config (desired - current_workers)
             else if desired <? current_workers
                  then scale_down (current_workers - desired)
                  else ret tt).
Proof.
  apply (preserves_bind _ leaves_lock_trans);
    [apply leaves_lock_get_active_workers|intros c].
  apply (preserves_bind _ leaves_lock_trans).
  { unfold desired_workers. lock_steps. }
  intros d.
  apply (preserves_bind _ leaves_lock_trans); [apply leaves_lock_should_scale|intros go].
  destruct (negb go); [apply (preserves_ret _ leaves_lock_refl)|].
  destruct (c <? d); [apply leaves_lock_scale_up|].
  destruct (d <? c); [apply leaves_lock_scale_down|apply (preserves_ret _ leaves_lock_refl)].
Qed.

(** X13: entered with the lock free, [scale_workers] never blocks and
    never leaves the lock held: it takes the lock once, first thing, and
    releases it once, last thing, on every way out -- also when it raises
    (a zero [tasks_per_worker]) and when a launch or a stop fails. *)
Theorem scale_workers_releases_the_lock (env : Env) (config : ScalingConfig)
    (q : Z) (w : World) :
  lock w = false ->
  match fst (scale_workers env config q w) with
  | Ret _ | Raise (Exc _) => True
  | _ => False
  end /\
  lock (snd (scale_workers env config q w)) = false /\
  exists evs,
    trace (snd (scale_workers env config q w)) = trace w ++ EAcquire :: evs ++ [ERelease] /\
    forallb (fun e => negb (is_lock_event e)) evs = true.
Proof.
  intros Hfree. unfold scale_workers.
  apply with_lock_free; [apply scale_workers_body_tame| |exact Hfree].
  apply scale_workers_body_leaves_lock.
Qed.

Lemma scale_workers_releases_the_lock_witness :
  lock fresh_world = false /\
  fst (scale_workers calm_env config_zero_tasks 5 fresh_world)
    = Raise (Exc ZeroDivisionError) /\
  lock (snd (scale_workers calm_env config_zero_tasks 5 fresh_world)) = false /\
  exists evs,
    trace (snd (scale_workers calm_env config_zero_tasks 5 fresh_world))
      = trace fresh_world ++ EAcquire :: evs ++ [ERelease] /\
    forallb (fun e => negb (is_lock_event e)) evs = true.
Proof.
  assert (H : lock fresh_world = false) by reflexivity.
  split; [exact H|]. split; [vm_compute; reflexivity|].
  exact (proj2 (scale_workers_releases_the_lock calm_env config_zero_tasks 5 fresh_world H)).
Defined.

(* ===================================================================== *)
(** ** Further properties of the control loop *)

Lemma get_active_workers_ret (env : Env) (w : World) :
  exists c, fst (get_active_workers env w) = Ret c /\ 0 <= c.
Proof.
  unfold get_active_workers, try_except, bind, inspect_active_call, len_worker_processes.
  destruct (inspect_active env (queries w)); simpl; eexists; split; try reflexivity; lia.
Qed.

(** [scale_workers] returns when the lock is free, [tasks_per_worker] is
    not zero and the worker count it reads is one for which the float
    product was checked. *)
Lemma scale_workers_returns (env : Env) (config : ScalingConfig) (q : Z) (w : World) :
  lock w = false ->
  tasks_per_worker config <> 0 ->
  (forall c w1, get_active_workers env (emit EAcquire (set_lock true w)) = (Ret c, w1) ->
                c < checked_counts) ->
  fst (scale_workers env config q w) = Ret tt.
Proof.
  intros Hfree Ht Hsmall. unfold scale_workers, with_lock. rewrite Hfree.
  unfold bind at 1.
  destruct (get_active_workers_ret env (emit EAcquire (set_lock true w))) as (c & Hc & Hpos).
  destruct (get_active_workers env (emit EAcquire (set_lock true w))) as [o w1] eqn:Hg.
  simpl in Hc. subst o. specialize (Hsmall c w1 eq_refl).
  unfold bind at 1. rewrite desired_workers_eq by exact Ht.
  set (d := Z.max _ _). unfold bind at 1.
  destruct (Z.lt_ge_cases (timedelta_seconds (clock w1 - last_scale_time w1))
              (cooldown_period config)) as [Hcool|Hready].
  - rewrite should_scale_cooling by exact Hcool. reflexivity.
  - rewrite should_scale_ready by exact Hready.
    rewrite int_times_0_2_floor by lia.
    destruct (negb _); [reflexivity|].
    destruct (c <? d).
    + rewrite (scale_up_ret env config (d - c) w1). reflexivity.
    + destruct (d <? c); [|reflexivity].
      destruct (scale_down_returns (c - d) w1) as [[] Hr].
      destruct (scale_down (c - d) w1) as [o w2]. simpl in Hr. subst o. reflexivity.
Qed.







(** X14: with [tasks_per_worker = 0] an iteration does no scaling at
    all: the division in [scale_workers] raises, the main loop logs the
    ZeroDivisionError, and the health check after it is skipped, so
    nothing is launched and nothing is stopped even when the worker count
    is below [min_workers]. *)
Theorem run_iteration_with_zero_tasks (env : Env) (config : ScalingConfig) (w : World) :
  lock w = false ->
  tasks_per_worker config = 0 ->
  worker_processes (snd (run_iteration env config w)) = worker_processes w /\
  procs (snd (run_iteration env config w)) = procs w /\
  last_scale_time (snd (run_iteration env config w)) = last_scale_time w /\
  exists evs,
    trace (snd (run_iteration env config w)) = trace w ++ evs /\
    In (ELog (LogMainLoopError ZeroDivisionError)) evs /\
    count_spawns evs = 0%nat /\
    forallb (fun e => negb (is_call_event e)) evs = true.
Proof.
  intros Hfree Hz.
  unfold run_iteration, scale_workers, with_lock, desired_workers, floordiv,
    get_queue_length, get_active_workers, redis_llen, inspect_active_call,
    len_worker_processes, try_except, bind, log, modify, gets, ret, raise, sleep.
  rewrite Hz. simpl.
  destruct (llen env (queries w) "celery") as [n|e]; [|destruct e]; simpl;
    rewrite ?Hfree; simpl;
    destruct (inspect_active env (S (queries w))); simpl; rewrite ?Hfree; simpl;
    destruct (inspect_active env (S (S (queries w)))); simpl;
    destruct (check_interval config <? 0); simpl;
    (split; [reflexivity|]; split; [reflexivity|]; split; [reflexivity|];
     eexists; split; [rewrite <- !app_assoc; reflexivity|];
     split; [simpl; tauto|split; reflexivity]).
Qed.

Lemma run_iteration_with_zero_tasks_witness :
  lock fresh_world = false /\
  tasks_per_worker config_zero_tasks = 0 /\
  worker_processes (snd (run_iteration calm_env config_zero_tasks fresh_world)) = [] /\
  new_events fresh_world (snd (run_iteration calm_env config_zero_tasks fresh_world))
  = [ELog (LogStatus 0 0); EAcquire; ERelease;
     ELog (LogMainLoopError ZeroDivisionError); ESleep 10].
Proof.
  assert (H1 : lock fresh_world = false) by reflexivity.
  assert (H2 : tasks_per_worker config_zero_tasks = 0) by reflexivity.
  split; [exact H1|]. split; [exact H2|].
  split.
  - exact (proj1 (run_iteration_with_zero_tasks calm_env config_zero_tasks fresh_world H1 H2)).
  - vm_compute. reflexivity.
Defined.

(* ===================================================================== *)
(** ** Further properties of [cleanup] *)

Lemma stamp_send_signal (pid : nat) (s : Signal) :
  preserves (keeps last_scale_time) (send_signal pid s).
Proof.
  intros w. unfold keeps, send_signal.
  destruct (procs w !! pid) as [p|]; [|reflexivity].
  destruct (pstate (poll (clock w) p)); try reflexivity;
    destruct (os_denied (poll (clock w) p)); reflexivity.
Qed.

Lemma stamp_wait_for (pid : nat) (timeout : Z) :
  preserves (keeps last_scale_time) (wait_for pid timeout).
Proof.
  intros w. unfold keeps, wait_for.
  destruct (procs w !! pid) as [p|]; [|reflexivity].
  destruct (pstate p); try reflexivity. destruct (_ <=? _); reflexivity.
Qed.

Lemma keeps_refl {A} (f : World -> A) (w : World) : keeps f w w.
Proof. reflexivity. Qed.

Lemma keeps_trans {A} (f : World -> A) (a b c : World) :
  keeps f a b -> keeps f b c -> keeps f a c.
Proof. unfold keeps. congruence. Qed.

Lemma stamp_cleanup_one (worker : string * nat) :
  preserves (keeps last_scale_time) (cleanup_one worker).
Proof.
  destruct worker as [name pid]. unfold cleanup_one, terminate, wait, kill.
  apply (preserves_try_except _ (keeps_trans last_scale_time)).
  - apply (preserves_bind _ (keeps_trans last_scale_time)).
    + apply (preserves_bind _ (keeps_trans last_scale_time));
        [intros w; reflexivity|intros _; apply stamp_send_signal].
    + intros _. apply (preserves_bind _ (keeps_trans last_scale_time)).
      * apply (preserves_bind _ (keeps_trans last_scale_time));
          [intros w; reflexivity|intros _; apply stamp_wait_for].
      * intros _ w. reflexivity.
  - intros e h [= <-].
    apply (preserves_bind _ (keeps_trans last_scale_time));
      [intros w; reflexivity|intros _; apply stamp_send_signal].
Qed.

(** X17: however it ends, returning or raising, [cleanup] has cleared
    [running], has left the worker map and [last_scale_time] exactly as
    they were, and has not blocked. *)
Theorem cleanup_keeps_the_books (w : World) :
  running (snd (cleanup w)) = false /\
  worker_processes (snd (cleanup w)) = worker_processes w /\
  last_scale_time (snd (cleanup w)) = last_scale_time w /\
  fst (cleanup w) <> Hang.
Proof.
  rewrite cleanup_unfold.
  assert (Hs := preserves_for_each settles settles_refl settles_trans
                  (worker_processes w) cleanup_one settles_cleanup_one
                  (set_running false (emit (ELog LogCleaningUp) w))).
  assert (Hk := preserves_for_each (keeps last_scale_time)
                  (keeps_refl last_scale_time) (keeps_trans last_scale_time)
                  (worker_processes w) cleanup_one stamp_cleanup_one
                  (set_running false (emit (ELog LogCleaningUp) w))).
  assert (Ht := tame_for_each (worker_processes w) cleanup_one tame_cleanup_one
                  (set_running false (emit (ELog LogCleaningUp) w))).
  destruct Hs as (_ & Hwp & Hrun & _). unfold keeps in Hk.
  split; [exact Hrun|]. split; [exact Hwp|]. split; [exact Hk|].
  destruct (fst _); [discriminate|discriminate|contradiction].
Qed.

Lemma clock_cleanup_one (worker : string * nat) (w : World) :
  clock w <= clock (snd (cleanup_one worker w)) <= clock w + 5 * usec.
Proof.
  destruct worker as [name pid]. unfold cleanup_one, try_except, bind.
  assert (Ht := clock_terminate pid w).
  destruct (terminate pid w) as [[[]|[e|c]|] w1]; simpl in Ht.
  - assert (Hw := clock_wait pid 5 w1 ltac:(lia)).
    assert (Hk := fun w2 => clock_kill pid w2).
    destruct (wait pid 5 w1) as [[c|[e|c]|] w2]; simpl in Hw.
    + simpl. lia.
    + specialize (Hk w2). destruct (kill pid w2) as [o3 w3]. simpl in *. lia.
    + simpl. lia.
    + simpl. lia.
  - assert (Hk := clock_kill pid w1). destruct (kill pid w1) as [o3 w3].
    simpl in *. unfold usec. lia.
  - simpl. unfold usec. lia.
  - simpl. unfold usec. lia.
Qed.

Lemma clock_for_each_cleanup (items : list (string * nat)) (w : World) :
  clock w <= clock (snd (for_each items cleanup_one w))
    <= clock w + 5 * usec * Z.of_nat (length items).
Proof.
  revert w. induction items as [|x items IH]; intros w.
  - simpl. lia.
  - cbn [for_each length]. unfold bind at 1 2.
    assert (H1 := clock_cleanup_one x w).
    destruct (cleanup_one x w) as [[[]|r|] w1]; simpl in H1.
    + specialize (IH w1). unfold usec in *. lia.
    + simpl. unfold usec in *. lia.
    + simpl. unfold usec in *. lia.
Qed.

(** X18: [cleanup] takes at most five seconds for each tracked worker,
    however it ends. *)
Theorem cleanup_takes_five_seconds_each (w : World) :
  clock w <= clock (snd (cleanup w))
    <= clock w + 5 * usec * Z.of_nat (length (worker_processes w)).
Proof.
  rewrite cleanup_unfold.
  exact (clock_for_each_cleanup (worker_processes w)
           (set_running false (emit (ELog LogCleaningUp) w))).
Qed.

(* ===================================================================== *)
(** ** The loop of [run] *)






























(* ===================================================================== *)
(** ** What [scale_workers] does *)

(** X19: during the cooldown [scale_workers] only reads the worker
    count: it returns, launches nothing, calls no process, and leaves the
    worker map, the process table, [last_scale_time] and the clock as
    they were. *)
Theorem scale_workers_idle_in_cooldown (env : Env) (config : ScalingConfig)
    (q : Z) (w : World) :
  lock w = false ->
  tasks_per_worker config <> 0 ->
  timedelta_seconds (clock w - last_scale_time w) < cooldown_period config ->
  fst (scale_workers env config q w) = Ret tt /\
  worker_processes (snd (scale_workers env config q w)) = worker_processes w /\
  procs (snd (scale_workers env config q w)) = procs w /\
  last_scale_time (snd (scale_workers env config q w)) = last_scale_time w /\
  clock (snd (scale_workers env config q w)) = clock w /\
  exists evs,
    trace (snd (scale_workers env config q w)) = trace w ++ evs /\
    count_spawns evs = 0%nat /\
    forallb (fun e => negb (is_call_event e)) evs = true.
Proof.
  intros Hfree Ht Hcool.
  unfold scale_workers, with_lock, desired_workers, floordiv, should_scale,
    get_active_workers, inspect_active_call, len_worker_processes,
    try_except, bind, log, modify, gets, now, ret.
  rewrite Hfree. simpl.
  destruct (Z.eqb_spec (tasks_per_worker config) 0) as [Hz|_]; [contradiction|].
  destruct (inspect_active env (queries w)); simpl;
    destruct (Z.ltb_spec (timedelta_seconds (clock w - last_scale_time w))
                (cooldown_period config)) as [_|Hge]; try lia; simpl;
    (repeat (split; [reflexivity|]);
     eexists; split; [rewrite <- !app_assoc; reflexivity|split; reflexivity]).
Qed.

Lemma scale_workers_idle_in_cooldown_witness :
  lock world_cooling = false /\
  tasks_per_worker default_config <> 0 /\
  timedelta_seconds (clock world_cooling - last_scale_time world_cooling)
    < cooldown_period default_config /\
  fst (scale_workers busy_env default_config 47 world_cooling) = Ret tt /\
  worker_processes (snd (scale_workers busy_env default_config 47 world_cooling)) = [] /\
  procs (snd (scale_workers busy_env default_config 47 world_cooling)) = [].
Proof.
  assert (H1 : lock world_cooling = false) by reflexivity.
  assert (H2 : tasks_per_worker default_config <> 0) by (simpl; lia).
  assert (H3 : timedelta_seconds (clock world_cooling - last_scale_time world_cooling)
               < cooldown_period default_config) by (vm_compute; reflexivity).
  split; [exact H1|]. split; [exact H2|]. split; [exact H3|].
  destruct (scale_workers_idle_in_cooldown busy_env default_config 47 world_cooling H1 H2 H3)
    as (R1 & R2 & R3 & _).
  split; [exact R1|]. split; [exact R2|exact R3].
Defined.

(** X20: when the broker reports [n] live workers, the cooldown test
    passes and the difference reaches the deadband, [scale_workers]
    reconciles by exactly the difference between the desired count
    [max(min_workers, min(max_workers, q // tasks_per_worker + 1))] and
    [n]: it calls [scale_up] with [desired - n] when [n] is smaller and
    [scale_down] with [n - desired] when [n] is larger, under the lock,
    and returns. *)
Theorem scale_workers_reconciles (env : Env) (config : ScalingConfig)
    (q : Z) (n : nat) (w : World) :
  lock w = false ->
  tasks_per_worker config <> 0 ->
  inspect_active env (queries w) = InspectActive n ->
  Z.of_nat n < checked_counts ->
  cooldown_period config <= timedelta_seconds (clock w - last_scale_time w) ->
  Z.max 2 (Z.of_nat n / 5)
    <= Z.abs (Z.max (min_workers config)
                (Z.min (max_workers config) (q / tasks_per_worker config + 1))
              - Z.of_nat n) ->
  scale_workers env config q w =
    (Ret tt,
     emit ERelease
       (set_lock false
          (snd (if Z.of_nat n <? Z.max (min_workers config)
                                   (Z.min (max_workers config)
                                      (q / tasks_per_worker config + 1))
                then scale_up env config
                       (Z.max (min_workers config)
                          (Z.min (max_workers config) (q / tasks_per_worker config + 1))
                        - Z.of_nat n)
                       (next_query (emit EAcquire (set_lock true w)))
                else scale_down
                       (Z.of_nat n
                        - Z.max (min_workers config)
                            (Z.min (max_workers config)
                               (q / tasks_per_worker config + 1)))
                       (next_query (emit EAcquire (set_lock true w))))))).
Proof.
  intros Hfree Ht Hins Hsmall Hready Hband.
  set (d := Z.max (min_workers config)
              (Z.min (max_workers config) (q / tasks_per_worker config + 1))) in *.
  unfold scale_workers, with_lock. rewrite Hfree.
  unfold bind at 1.
  unfold get_active_workers, try_except, bind at 1, inspect_active_call.
  cbn [queries emit set_lock]. rewrite Hins. cbn [ret].
  unfold bind at 1. rewrite desired_workers_eq by exact Ht. fold d.
  unfold bind at 1.
  rewrite should_scale_ready by exact Hready.
  rewrite int_times_0_2_floor by lia.
  destruct (Z.leb_spec (Z.max 2 (Z.of_nat n / 5)) (Z.abs (d - Z.of_nat n))) as [_|Hlt];
    [|lia].
  cbn [negb].
  destruct (Z.ltb_spec (Z.of_nat n) d) as [Hup|Hdown].
  - rewrite (scale_up_ret env config (d - Z.of_nat n)). reflexivity.
  - destruct (Z.ltb_spec d (Z.of_nat n)) as [_|Heq]; [|lia].
    destruct (scale_down_returns (Z.of_nat n - d)
                (next_query (emit EAcquire (set_lock true w)))) as [[] Hr].
    destruct (scale_down (Z.of_nat n - d) (next_query (emit EAcquire (set_lock true w))))
      as [o w2]. simpl in Hr. subst o. reflexivity.
Qed.

Lemma scale_workers_reconciles_witness :
  lock fresh_world = false /\
  tasks_per_worker default_config <> 0 /\
  inspect_active busy_env (queries fresh_world) = InspectActive 3 /\
  Z.of_nat 3 < checked_counts /\
  cooldown_period default_config
    <= timedelta_seconds (clock fresh_world - last_scale_time fresh_world) /\
  scale_workers busy_env default_config 47 fresh_world =
    (Ret tt,
     emit ERelease
       (set_lock false
          (snd (scale_up busy_env default_config 45
                  (next_query (emit EAcquire (set_lock true fresh_world))))))).
Proof.
  assert (H1 : lock fresh_world = false) by reflexivity.
  assert (H2 : tasks_per_worker default_config <> 0) by (simpl; lia).
  assert (H3 : inspect_active busy_env (queries fresh_world) = InspectActive 3)
    by reflexivity.
  assert (H4 : Z.of_nat 3 < checked_counts) by (unfold checked_counts; lia).
  assert (H5 : cooldown_period default_config
               <= timedelta_seconds (clock fresh_world - last_scale_time fresh_world))
    by (vm_compute; congruence).
  assert (H6 : Z.max 2 (Z.of_nat 3 / 5)
               <= Z.abs (Z.max (min_workers default_config)
                           (Z.min (max_workers default_config)
                              (47 / tasks_per_worker default_config + 1))
                         - Z.of_nat 3))
    by (vm_compute; congruence).
  split; [exact H1|]. split; [exact H2|]. split; [exact H3|]. split; [exact H4|].
  split; [exact H5|].
  assert (H := scale_workers_reconciles busy_env default_config 47 3 fresh_world
                 H1 H2 H3 H4 H5 H6).
  assert (Hd : Z.max (min_workers default_config)
                 (Z.min (max_workers default_config)
                    (47 / tasks_per_worker default_config + 1)) = 48) by reflexivity.
  rewrite Hd in H.
  assert (Hn : Z.of_nat 3 = 3) by reflexivity.
  rewrite Hn in H.
  assert (Hlt : (3 <? 48) = true) by reflexivity.
  rewrite Hlt in H.
  assert (Hm : 48 - 3 = 45) by reflexivity.
  rewrite Hm in H.
  exact H.
Defined.

(* ===================================================================== *)
(** ** Stopping workers: what is known of the process afterwards *)

(** On the stubborn worker of [world_two_workers] the forced course is
    the one taken, and the deletion comes last. *)
Example terminate_one_stubborn :
  new_events world_two_workers
    (snd (terminate_one ("celery_worker_host_bbbbbbbb"%string, 1%nat) world_two_workers))
  = [ECall 1 MTerminate; EKill 1 SIGTERM; ECall 1 (MWait 5); ECall 1 MKill; EKill 1 SIGKILL;
     EDel "celery_worker_host_bbbbbbbb"].
Proof. vm_compute. reflexivity. Qed.

(** C3, as stated, fails: the stubborn worker of [world_two_workers] is
    sent SIGTERM, waited for, and sent SIGKILL; its handle is removed as
    soon as [kill()] has returned, when the process has not ended yet
    (it ends three milliseconds later) and has not been reaped. *)
Lemma terminate_one_drops_a_running_process :
  procs world_two_workers !! 1%nat = Some stubborn_worker /\
  dict_get "celery_worker_host_bbbbbbbb" (worker_processes world_two_workers) = Some 1%nat /\
  fst (terminate_one ("celery_worker_host_bbbbbbbb"%string, 1%nat) world_two_workers)
    = Ret tt /\
  dict_get "celery_worker_host_bbbbbbbb"
    (worker_processes
       (snd (terminate_one ("celery_worker_host_bbbbbbbb"%string, 1%nat) world_two_workers)))
    = None /\
  clock (snd (terminate_one ("celery_worker_host_bbbbbbbb"%string, 1%nat) world_two_workers))
    = 5000000 /\
  procs (snd (terminate_one ("celery_worker_host_bbbbbbbb"%string, 1%nat) world_two_workers))
    !! 1%nat = Some (with_pstate (Dying 5003000 (-9)) stubborn_worker) /\
  gone 5000000 (with_pstate (Dying 5003000 (-9)) stubborn_worker) = false.
Proof.
  split; [reflexivity|]. split; [reflexivity|].
  split; [vm_compute; reflexivity|]. split; [vm_compute; reflexivity|].
  split; [vm_compute; reflexivity|]. split; vm_compute; reflexivity.
Qed.

Lemma stop_leaf_trace (w w' : World) (evs : list Event) :
  trace w' = trace w ++ evs -> new_events w w' = evs.
Proof.
  intros H. unfold new_events. rewrite H, drop_app_length. reflexivity.
Qed.

Ltac stop_leaf :=
  simpl;
  repeat match goal with
    | |- _ /\ _ => split
    | |- new_events _ _ = _ =>
        apply stop_leaf_trace; simpl; rewrite <- ?app_assoc; reflexivity
    | |- exists p', _ !! _ = Some p' /\ _ => eexists; split; [find_proc|]
    | |- _ !! _ = _ => find_proc
    | |- exists c, _ = Reaped c => eexists; reflexivity
    | |- _ <= _ => unfold usec in *; lia
    | |- _ = _ => first [reflexivity | unfold usec in *; lia]
    end.

(** C3, amended: for every tracked handle the per-worker path of
    [scale_down] sends the graceful-stop signal first.  When that signal
    is refused nothing more is done and the handle stays.  Otherwise it
    waits up to five seconds: when the process ends in that time its exit
    is collected and the handle is removed; when it does not, the forced
    kill is sent at the deadline and the handle is removed as soon as
    [kill()] has returned -- the process then ends within its kill
    latency, and is still running at the removal unless that latency is
    zero.  The removal is always the last step, after the signals and
    the wait. *)
Theorem terminate_one_signals_then_drops
    (name : string) (pid : nat) (p : Popen) (d' : Dict) (w : World) :
  procs w !! pid = Some p ->
  dict_del name (worker_processes w) = Some d' ->
  let r := terminate_one (name, pid) w in
  match stop_of (clock w) p with
  | Refused =>
      fst r = Raise (Exc PermissionError) /\
      new_events w (snd r) = [ECall pid MTerminate] /\
      worker_processes (snd r) = worker_processes w /\
      clock (snd r) = clock w
  | Graceful =>
      fst r = Ret tt /\
      new_events w (snd r) =
        ECall pid MTerminate
        :: (if gone (clock w) p then [] else [EKill pid SIGTERM])
        ++ [ECall pid (MWait 5); EDel name] /\
      worker_processes (snd r) = d' /\
      clock w <= clock (snd r) <= clock w + 5 * usec /\
      exists p', procs (snd r) !! pid = Some p' /\ exists c, pstate p' = Reaped c
  | Forced =>
      fst r = Ret tt /\
      new_events w (snd r) =
        [ECall pid MTerminate; EKill pid SIGTERM; ECall pid (MWait 5);
         ECall pid MKill; EKill pid SIGKILL; EDel name] /\
      worker_processes (snd r) = d' /\
      clock (snd r) = clock w + 5 * usec /\
      exists p' t c,
        procs (snd r) !! pid = Some p' /\
        pstate p' = Dying t c /\
        clock (snd r) <= t <= clock (snd r) + Z.of_N (sigkill_delay p) /\
        gone (clock (snd r)) p' = (Z.of_N (sigkill_delay p) =? 0)
  end.
Proof.
  intros Hp Hdel r. subst r.
  unfold terminate_one, bind.
  rewrite (terminate_eq pid p w Hp). cbv zeta.
  destruct p as [st delay kd denied].
  unfold stop_of, exit_after_sigterm, gone, poll. simpl.
  pose proof (N2Z.is_nonneg kd) as Hkd.
  destruct st as [|t c|c]; simpl.
  - (* the worker is running *)
    destruct denied; simpl.
    + stop_leaf.
    + destruct delay as [d|]; simpl.
      * unfold try_except, bind.
        erewrite wait_eq by find_proc. simpl.
        pose proof (N2Z.is_nonneg d).
        destruct (Z.leb_spec (clock w + Z.of_N d) (clock w + 5 * usec)).
        -- unfold ret, dict_delete. simpl. rewrite Hdel. stop_leaf.
        -- erewrite kill_eq by find_proc. unfold poll. simpl.
           destruct (Z.leb_spec (clock w + Z.of_N d) (clock w + 5 * usec)); [lia|].
           simpl.
           destruct (Z.leb_spec (clock w + Z.of_N d) (clock w + 5 * usec + Z.of_N kd));
             unfold dict_delete; simpl; rewrite Hdel; simpl.
           ++ split; [reflexivity|]. split; [stop_leaf|]. split; [reflexivity|].
              split; [reflexivity|].
              eexists _, _, _. split; [find_proc|]. split; [reflexivity|].
              split; [unfold usec in *; lia|].
              simpl. destruct (Z.leb_spec (clock w + Z.of_N d) (clock w + 5 * usec)); [lia|].
              symmetry. apply Z.eqb_neq. unfold usec in *. lia.
           ++ split; [reflexivity|]. split; [stop_leaf|]. split; [reflexivity|].
              split; [reflexivity|].
              eexists _, _, _. split; [find_proc|]. split; [reflexivity|].
              split; [unfold usec in *; lia|].
              simpl. destruct (Z.eqb_spec (Z.of_N kd) 0) as [->|Hne].
              ** apply Z.leb_le. lia.
              ** apply Z.leb_gt. lia.
      * unfold try_except, bind.
        erewrite wait_eq by find_proc. simpl.
        erewrite kill_eq by find_proc. unfold poll. simpl.
        unfold dict_delete. simpl. rewrite Hdel. simpl.
        split; [reflexivity|]. split; [stop_leaf|]. split; [reflexivity|].
        split; [reflexivity|].
        eexists _, _, _. split; [find_proc|]. split; [reflexivity|].
        split; [unfold usec in *; lia|].
        simpl. destruct (Z.eqb_spec (Z.of_N kd) 0) as [->|Hne].
        -- apply Z.leb_le. lia.
        -- apply Z.leb_gt. lia.
  - (* the worker is on its way out already *)
    destruct (Z.leb_spec t (clock w)) as [Hdead|Hlive]; simpl.
    + unfold try_except, bind.
      erewrite wait_eq by find_proc. simpl.
      unfold ret, dict_delete. simpl. rewrite Hdel. stop_leaf.
    + destruct denied; simpl.
      * stop_leaf.
      * unfold try_except, bind.
        erewrite wait_eq by find_proc. simpl.
        destruct (Z.leb_spec t (clock w + 5 * usec)).
        -- unfold ret, dict_delete. simpl. rewrite Hdel. stop_leaf.
        -- erewrite kill_eq by find_proc. unfold poll. simpl.
           destruct (Z.leb_spec t (clock w + 5 * usec)); [lia|].
           simpl.
           destruct (Z.leb_spec t (clock w + 5 * usec + Z.of_N kd));
             unfold dict_delete; simpl; rewrite Hdel; simpl.
           ++ split; [reflexivity|]. split; [stop_leaf|]. split; [reflexivity|].
              split; [reflexivity|].
              eexists _, _, _. split; [find_proc|]. split; [reflexivity|].
              split; [unfold usec in *; lia|].
              simpl. destruct (Z.leb_spec t (clock w + 5 * usec)); [lia|].
              symmetry. apply Z.eqb_neq. unfold usec in *. lia.
           ++ split; [reflexivity|]. split; [stop_leaf|]. split; [reflexivity|].
              split; [reflexivity|].
              eexists _, _, _. split; [find_proc|]. split; [reflexivity|].
              split; [unfold usec in *; lia|].
              simpl. destruct (Z.eqb_spec (Z.of_N kd) 0) as [->|Hne].
              ** apply Z.leb_le. lia.
              ** apply Z.leb_gt. lia.
  - (* the exit of the worker has been collected before *)
    unfold try_except, bind.
    erewrite wait_eq by find_proc. simpl.
    unfold ret, dict_delete. simpl. rewrite Hdel. stop_leaf.
Qed.

Lemma terminate_one_signals_then_drops_witness :
  procs world_two_workers !! 0%nat = Some graceful_worker /\
  dict_del "celery_worker_host_aaaaaaaa" (worker_processes world_two_workers)
    = Some [("celery_worker_host_bbbbbbbb"%string, 1%nat)] /\
  stop_of (clock world_two_workers) graceful_worker = Graceful /\
  fst (terminate_one ("celery_worker_host_aaaaaaaa"%string, 0%nat) world_two_workers)
    = Ret tt /\
  new_events world_two_workers
    (snd (terminate_one ("celery_worker_host_aaaaaaaa"%string, 0%nat) world_two_workers))
    = [ECall 0 MTerminate; EKill 0 SIGTERM; ECall 0 (MWait 5);
       EDel "celery_worker_host_aaaaaaaa"] /\
  worker_processes
    (snd (terminate_one ("celery_worker_host_aaaaaaaa"%string, 0%nat) world_two_workers))
    = [("celery_worker_host_bbbbbbbb"%string, 1%nat)].
Proof.
  assert (H1 : procs world_two_workers !! 0%nat = Some graceful_worker) by reflexivity.
  assert (H2 : dict_del "celery_worker_host_aaaaaaaa" (worker_processes world_two_workers)
               = Some [("celery_worker_host_bbbbbbbb"%string, 1%nat)]) by reflexivity.
  split; [exact H1|]. split; [exact H2|]. split; [reflexivity|].
  destruct (terminate_one_signals_then_drops "celery_worker_host_aaaaaaaa" 0
              graceful_worker _ world_two_workers H1 H2) as (R1 & R2 & R3 & _).
  split; [exact R1|]. split; [exact R2|exact R3].
Defined.

(* --------------------------------------------------------------------- *)
(** *** Handles that take every signal *)

(** Every method of a process keeps its handle settled. *)
Lemma stays_settled_refl (w : World) : stays_settled w w.
Proof. intros worker H. exact H. Qed.

Lemma stays_settled_trans (a b c : World) :
  stays_settled a b -> stays_settled b c -> stays_settled a c.
Proof. intros H1 H2 worker H. auto. Qed.

Lemma stays_settled_procs (w w' : World) : procs w' = procs w -> stays_settled w w'.
Proof. intros H worker. unfold settled. rewrite H. auto. Qed.

Lemma settled_set_proc (pid : nat) (p p' : Popen) (w : World) :
  procs w !! pid = Some p ->
  os_denied p' = os_denied p ->
  ((exists c, pstate p = Reaped c) -> exists c, pstate p' = Reaped c) ->
  stays_settled w (set_proc pid p' w).
Proof.
  intros Hp Hd Hr [name q]. unfold settled. simpl.
  destruct (Nat.eq_dec q pid) as [->|Hne].
  - rewrite Hp, list_lookup_insert_eq by (eapply lookup_lt_Some; exact Hp).
    rewrite Hd. destruct (pstate p) as [| |c].
    + destruct (pstate p'); auto.
    + destruct (pstate p'); auto.
    + destruct Hr as [c' ->]; [eexists; reflexivity|]. auto.
  - rewrite list_lookup_insert_ne by congruence. auto.
Qed.

Lemma reaped_poll (t : Z) (p : Popen) :
  (exists c, pstate p = Reaped c) -> exists c, pstate (poll t p) = Reaped c.
Proof. intros [c H]. unfold poll. rewrite H. eauto. Qed.

Lemma reaped_deliver (t : Z) (s : Signal) (p : Popen) :
  (exists c, pstate p = Reaped c) -> exists c, pstate (deliver t s p) = Reaped c.
Proof. intros [c H]. unfold deliver. rewrite H. destruct s; eauto. Qed.

Lemma stays_settled_send_signal (pid : nat) (s : Signal) :
  preserves stays_settled (send_signal pid s).
Proof.
  intros w. unfold send_signal.
  destruct (procs w !! pid) as [p|] eqn:Hp; [|apply stays_settled_refl].
  assert (H1 : stays_settled w (set_proc pid (poll (clock w) p) w))
    by (eapply settled_set_proc; [exact Hp|apply os_denied_poll|apply reaped_poll]).
  assert (H2 : stays_settled (set_proc pid (poll (clock w) p) w)
                 (emit (EKill pid s)
                    (set_proc pid (deliver (clock w) s (poll (clock w) p))
                       (set_proc pid (poll (clock w) p) w)))).
  { eapply stays_settled_trans; [|apply stays_settled_procs; reflexivity].
    eapply settled_set_proc.
    - apply lookup_set_proc_eq with (q := p). exact Hp.
    - apply os_denied_deliver.
    - apply reaped_deliver. }
  destruct (pstate (poll (clock w) p)); simpl; try exact H1;
    destruct (os_denied (poll (clock w) p)); simpl; try exact H1;
    (eapply stays_settled_trans; [exact H1|exact H2]).
Qed.

Lemma stays_settled_wait_for (pid : nat) (timeout : Z) :
  preserves stays_settled (wait_for pid timeout).
Proof.
  intros w. unfold wait_for.
  destruct (procs w !! pid) as [p|] eqn:Hp; [|apply stays_settled_refl].
  destruct (pstate p); simpl; try (apply stays_settled_procs; reflexivity).
  destruct (_ <=? _); simpl; [|apply stays_settled_procs; reflexivity].
  eapply stays_settled_trans; [|apply stays_settled_procs; reflexivity].
  eapply settled_set_proc; [exact Hp|reflexivity|].
  intros _. eexists. reflexivity.
Qed.

Lemma stays_settled_emit (e : Event) : preserves stays_settled (modify (emit e)).
Proof. intros w. apply stays_settled_procs. reflexivity. Qed.

Lemma stays_settled_terminate (pid : nat) : preserves stays_settled (terminate pid).
Proof.
  apply (preserves_bind _ stays_settled_trans);
    [apply stays_settled_emit|intros _; apply stays_settled_send_signal].
Qed.

Lemma stays_settled_kill (pid : nat) : preserves stays_settled (kill pid).
Proof.
  apply (preserves_bind _ stays_settled_trans);
    [apply stays_settled_emit|intros _; apply stays_settled_send_signal].
Qed.

Lemma stays_settled_wait (pid : nat) (timeout : Z) :
  preserves stays_settled (wait pid timeout).
Proof.
  apply (preserves_bind _ stays_settled_trans);
    [apply stays_settled_emit|intros _; apply stays_settled_wait_for].
Qed.

Lemma stays_settled_cleanup_one (worker : string * nat) :
  preserves stays_settled (cleanup_one worker).
Proof.
  destruct worker as [name pid]. unfold cleanup_one.
  apply (preserves_try_except _ stays_settled_trans).
  - apply (preserves_bind _ stays_settled_trans); [apply stays_settled_terminate|].
    intros _. apply (preserves_bind _ stays_settled_trans); [apply stays_settled_wait|].
    intros _. apply (preserves_ret _ stays_settled_refl).
  - intros e h [= <-]. apply stays_settled_kill.
Qed.

(** A signal that is sent and returns shows the handle settled, and a
    settled handle takes every signal. *)
Lemma send_signal_ret_settled (name : string) (pid : nat) (s : Signal) (w w' : World) :
  send_signal pid s w = (Ret tt, w') -> settled w' (name, pid) = true.
Proof.
  unfold send_signal, settled.
  destruct (procs w !! pid) as [p|] eqn:Hp; [|discriminate].
  assert (Hlt : (pid < length (procs w))%nat) by (eapply lookup_lt_Some; exact Hp).
  cbv zeta. set (p1 := poll (clock w) p).
  assert (Hq : forall q, os_denied q = false ->
            match pstate q with Reaped _ => true | _ => negb (os_denied q) end = true).
  { intros q Hq. rewrite Hq. destruct (pstate q); reflexivity. }
  destruct (pstate p1) eqn:Hs.
  - destruct (os_denied p1) eqn:Hd; [discriminate|]. intros [= <-]. simpl.
    rewrite list_lookup_insert_eq by (rewrite ?length_insert; exact Hlt).
    apply Hq. rewrite os_denied_deliver. exact Hd.
  - destruct (os_denied p1) eqn:Hd; [discriminate|]. intros [= <-]. simpl.
    rewrite list_lookup_insert_eq by (rewrite ?length_insert; exact Hlt).
    apply Hq. rewrite os_denied_deliver. exact Hd.
  - intros [= <-]. simpl.
    rewrite list_lookup_insert_eq by (rewrite ?length_insert; exact Hlt).
    rewrite Hs. reflexivity.
Qed.

Lemma send_signal_settled (name : string) (pid : nat) (s : Signal) (w : World) :
  settled w (name, pid) = true -> fst (send_signal pid s w) = Ret tt.
Proof.
  unfold settled, send_signal. simpl.
  destruct (procs w !! pid) as [p|]; [|discriminate].
  intros H. unfold poll.
  destruct (pstate p) as [|t c|c] eqn:Hs; simpl.
  - rewrite Hs. destruct (os_denied p); [discriminate|reflexivity].
  - destruct (t <=? clock w); simpl; [reflexivity|].
    rewrite Hs. destruct (os_denied p); [discriminate|reflexivity].
  - rewrite Hs. reflexivity.
Qed.

Lemma wait_ret_settled (name : string) (pid : nat) (timeout c : Z) (w w' : World) :
  wait pid timeout w = (Ret c, w') -> settled w' (name, pid) = true.
Proof.
  unfold wait, bind, modify, wait_for, settled. simpl.
  destruct (procs w !! pid) as [p|] eqn:Hp; [|discriminate].
  destruct (pstate p) as [|t c0|c0] eqn:Hs.
  - discriminate.
  - destruct (t <=? clock w + timeout * usec); [|discriminate].
    intros [= <- <-]. simpl.
    rewrite list_lookup_insert_eq by (eapply lookup_lt_Some; exact Hp). reflexivity.
  - intros [= <- <-]. simpl. rewrite Hp, Hs. reflexivity.
Qed.

Lemma cleanup_one_ret_settled (name : string) (pid : nat) (w w' : World) :
  cleanup_one (name, pid) w = (Ret tt, w') -> settled w' (name, pid) = true.
Proof.
  unfold cleanup_one, try_except, bind at 1.
  destruct (terminate pid w) as [[[]|[e|c]|] w1] eqn:Ht.
  - unfold bind. destruct (wait pid 5 w1) as [[c|[e|c]|] w2] eqn:Hw.
    + intros [= <-]. eapply wait_ret_settled. exact Hw.
    + unfold kill, bind, modify. simpl.
      destruct (send_signal pid SIGKILL (emit (ECall pid MKill) w2)) as [[[]|r|] w3] eqn:Hk;
        try discriminate.
      intros [= <-]. eapply send_signal_ret_settled. exact Hk.
    + discriminate.
    + discriminate.
  - unfold kill, bind, modify. simpl.
    destruct (send_signal pid SIGKILL (emit (ECall pid MKill) w1)) as [[[]|r|] w3] eqn:Hk;
      try discriminate.
    intros [= <-]. eapply send_signal_ret_settled. exact Hk.
  - discriminate.
  - discriminate.
Qed.

Lemma cleanup_one_settled (name : string) (pid : nat) (w : World) :
  settled w (name, pid) = true -> fst (cleanup_one (name, pid) w) = Ret tt.
Proof.
  intros Hs. unfold cleanup_one, try_except, bind at 1.
  assert (Ht : fst (terminate pid w) = Ret tt).
  { unfold terminate, bind, modify. simpl.
    assert (H := send_signal_settled name pid SIGTERM (emit (ECall pid MTerminate) w) Hs).
    destruct (send_signal pid SIGTERM (emit (ECall pid MTerminate) w)) as [o w0].
    simpl in H. subst o. reflexivity. }
  assert (Hs1 := stays_settled_terminate pid w _ Hs).
  destruct (terminate pid w) as [o1 w1]. simpl in Ht, Hs1. subst o1.
  assert (Hw := tame_wait pid 5 w1).
  assert (Hs2 := stays_settled_wait pid 5 w1 _ Hs1).
  unfold bind.
  destruct (wait pid 5 w1) as [[c|[e|c]|] w2]; simpl in Hw, Hs2; try contradiction.
  - reflexivity.
  - unfold kill, bind, modify. simpl.
    assert (H := send_signal_settled name pid SIGKILL (emit (ECall pid MKill) w2) Hs2).
    destruct (send_signal pid SIGKILL (emit (ECall pid MKill) w2)) as [o w3].
    simpl in H. subst o. reflexivity.
Qed.

(** The first pass: when the loop of [cleanup] returns, every handle it
    went through is settled. *)
Lemma cleanup_pass_settles (items : list (string * nat)) (w w' : World) :
  for_each items cleanup_one w = (Ret tt, w') ->
  forall worker, In worker items -> settled w' worker = true.
Proof.
  revert w. induction items as [|[n q] items IH]; intros w H worker Hin.
  - destruct Hin.
  - apply for_each_ret_inv in H as (w1 & H1 & H2).
    destruct Hin as [<-|Hin]; [|eauto].
    assert (Hk := preserves_for_each stays_settled stays_settled_refl stays_settled_trans
                    items cleanup_one stays_settled_cleanup_one w1).
    rewrite H2 in Hk. apply Hk. eapply cleanup_one_ret_settled. exact H1.
Qed.

(** The second pass: over settled handles the loop returns. *)
Lemma cleanup_pass_returns (items : list (string * nat)) (w : World) :
  (forall worker, In worker items -> settled w worker = true) ->
  fst (for_each items cleanup_one w) = Ret tt.
Proof.
  revert w. induction items as [|[n q] items IH]; intros w Hall; [reflexivity|].
  cbn [for_each]. unfold bind.
  assert (H1 := cleanup_one_settled n q w (Hall _ (or_introl eq_refl))).
  assert (Hk := stays_settled_cleanup_one (n, q) w).
  destruct (cleanup_one (n, q) w) as [o w1]. simpl in H1, Hk. subst o.
  apply IH. intros worker Hin. apply Hk. apply Hall. right. exact Hin.
Qed.

(* --------------------------------------------------------------------- *)
(** *** Whom a second pass signals *)

Lemma signals_the_living_refl (w : World) : signals_the_living w w.
Proof.
  split; [auto|]. exists []. split; [symmetry; apply app_nil_r|]. intros ? ? [].
Qed.

Lemma signals_the_living_trans (a b c : World) :
  signals_the_living a b -> signals_the_living b c -> signals_the_living a c.
Proof.
  intros (H1 & e1 & H2 & H3) (G1 & e2 & G2 & G3).
  split; [auto|]. exists (e1 ++ e2). split.
  - rewrite G2, H2, app_assoc. reflexivity.
  - intros pid s Hin. apply in_app_or in Hin as [Hin|Hin]; [eauto|].
    intros He. apply (G3 pid s Hin). auto.
Qed.

Lemma signals_the_living_quiet (e : Event) (w w' : World) :
  is_kill_event e = false ->
  (forall pid, ended pid w -> ended pid w') ->
  trace w' = trace w ++ [e] ->
  signals_the_living w w'.
Proof.
  intros He Hk Ht. split; [exact Hk|]. exists [e]. split; [exact Ht|].
  intros pid s [->|[]]. discriminate He.
Qed.

Lemma signals_the_living_silent (w w' : World) :
  (forall pid, ended pid w -> ended pid w') ->
  trace w' = trace w ->
  signals_the_living w w'.
Proof.
  intros Hk Ht. split; [exact Hk|]. exists []. rewrite app_nil_r.
  split; [exact Ht|]. intros ? ? [].
Qed.

Lemma signals_the_living_emit (e : Event) :
  is_kill_event e = false -> preserves signals_the_living (modify (emit e)).
Proof.
  intros He w. apply (signals_the_living_quiet e); [exact He| |reflexivity].
  intros pid (p & Hp & Hg). exists p. auto.
Qed.

Lemma signals_the_living_send_signal (pid : nat) (s : Signal) :
  preserves signals_the_living (send_signal pid s).
Proof.
  intros w. assert (Hs := settles_send_signal pid s w).
  destruct Hs as (_ & _ & _ & Hkeep).
  unfold send_signal in *.
  destruct (procs w !! pid) as [p|] eqn:Hp; [|apply signals_the_living_refl].
  destruct (pstate (poll (clock w) p)) eqn:Hst;
    try (apply signals_the_living_silent; [exact Hkeep|reflexivity]);
    destruct (os_denied (poll (clock w) p));
    try (apply signals_the_living_silent; [exact Hkeep|reflexivity]);
    (split; [exact Hkeep|]; exists [EKill pid s]; split; [reflexivity|];
     intros q s' [[= <- <-]|[]] (p0 & Hp0 & Hg0);
     rewrite Hp in Hp0; injection Hp0 as <-;
     destruct (gone_poll _ _ Hg0) as [c' Hc]; congruence).
Qed.

Lemma signals_the_living_wait_for (pid : nat) (timeout : Z) :
  0 <= timeout -> preserves signals_the_living (wait_for pid timeout).
Proof.
  intros Ht w. assert (Hs := settles_wait_for pid timeout Ht w).
  destruct Hs as (_ & _ & _ & Hkeep).
  unfold wait_for in *.
  destruct (procs w !! pid) as [p|]; [|apply signals_the_living_refl].
  destruct (pstate p); try (apply signals_the_living_silent; [exact Hkeep|reflexivity]).
  destruct (_ <=? _); apply signals_the_living_silent; try exact Hkeep; reflexivity.
Qed.

Lemma signals_the_living_cleanup_one (worker : string * nat) :
  preserves signals_the_living (cleanup_one worker).
Proof.
  destruct worker as [name pid]. unfold cleanup_one, terminate, wait, kill.
  apply (preserves_try_except _ signals_the_living_trans).
  - apply (preserves_bind _ signals_the_living_trans).
    + apply (preserves_bind _ signals_the_living_trans);
        [apply signals_the_living_emit; reflexivity
        |intros _; apply signals_the_living_send_signal].
    + intros _. apply (preserves_bind _ signals_the_living_trans).
      * apply (preserves_bind _ signals_the_living_trans);
          [apply signals_the_living_emit; reflexivity
          |intros _; apply signals_the_living_wait_for; lia].
      * intros _. apply (preserves_ret _ signals_the_living_refl).
  - intros e h [= <-].
    apply (preserves_bind _ signals_the_living_trans);
      [apply signals_the_living_emit; reflexivity
      |intros _; apply signals_the_living_send_signal].
Qed.

Lemma terminate_trace (pid : nat) (w : World) :
  exists rest, trace (snd (terminate pid w)) = trace w ++ ECall pid MTerminate :: rest.
Proof.
  unfold terminate, bind, modify. simpl.
  assert (H1 := signals_the_living_send_signal pid SIGTERM (emit (ECall pid MTerminate) w)).
  destruct (send_signal pid SIGTERM (emit (ECall pid MTerminate) w)) as [o1 w1].
  destruct H1 as (_ & e1 & H1 & _). simpl in H1. exists e1.
  destruct o1 as [[]|[e|c]|]; simpl; rewrite H1, <- app_assoc; reflexivity.
Qed.

Lemma signals_the_living_wait (pid : nat) (timeout : Z) :
  0 <= timeout -> preserves signals_the_living (wait pid timeout).
Proof.
  intros Ht. unfold wait. apply (preserves_bind _ signals_the_living_trans);
    [apply signals_the_living_emit; reflexivity
    |intros _; apply signals_the_living_wait_for; exact Ht].
Qed.

Lemma signals_the_living_kill (pid : nat) : preserves signals_the_living (kill pid).
Proof.
  unfold kill. apply (preserves_bind _ signals_the_living_trans);
    [apply signals_the_living_emit; reflexivity
    |intros _; apply signals_the_living_send_signal].
Qed.

(** Every worker that a pass of the loop goes through has its
    [terminate()] called. *)
Lemma cleanup_one_calls_terminate (name : string) (pid : nat) (w : World) :
  exists rest, trace (snd (cleanup_one (name, pid) w))
               = trace w ++ ECall pid MTerminate :: rest.
Proof.
  destruct (terminate_trace pid w) as [e1 H1].
  unfold cleanup_one, try_except. unfold bind at 1.
  destruct (terminate pid w) as [o1 w1]. simpl in H1.
  assert (Hrest : forall w2 : World, signals_the_living w1 w2 ->
            exists rest, trace w2 = trace w ++ ECall pid MTerminate :: rest).
  { intros w2 (_ & e2 & H2 & _). exists (e1 ++ e2).
    rewrite H2, H1, <- !app_assoc. reflexivity. }
  destruct o1 as [[]|[e|c]|]; simpl.
  - assert (Hw := signals_the_living_wait pid 5 ltac:(lia) w1).
    unfold bind. destruct (wait pid 5 w1) as [[c|[e|c]|] w2]; simpl in Hw; simpl.
    + apply Hrest. exact Hw.
    + apply Hrest. eapply signals_the_living_trans; [exact Hw|].
      apply signals_the_living_kill.
    + apply Hrest. exact Hw.
    + apply Hrest. exact Hw.
  - apply Hrest. apply signals_the_living_kill.
  - apply Hrest. apply signals_the_living_refl.
  - apply Hrest. apply signals_the_living_refl.
Qed.

Lemma signals_the_living_cleanup_pass (items : list (string * nat)) :
  preserves signals_the_living (for_each items cleanup_one).
Proof.
  apply (preserves_for_each _ signals_the_living_refl signals_the_living_trans).
  apply signals_the_living_cleanup_one.
Qed.

Lemma cleanup_pass_calls_terminate (items : list (string * nat)) (w w' : World) :
  for_each items cleanup_one w = (Ret tt, w') ->
  exists evs, trace w' = trace w ++ evs /\
              forall name pid, In (name, pid) items -> In (ECall pid MTerminate) evs.
Proof.
  revert w. induction items as [|[n q] items IH]; intros w H.
  - injection H as <-. exists []. split; [symmetry; apply app_nil_r|]. intros ? ? [].
  - apply for_each_ret_inv in H as (w1 & H1 & H2).
    destruct (cleanup_one_calls_terminate n q w) as [rest Hr].
    rewrite H1 in Hr. simpl in Hr.
    destruct (IH w1 H2) as (evs & He & Hall).
    exists (ECall q MTerminate :: rest ++ evs). split.
    + rewrite He, Hr, <- app_assoc. reflexivity.
    + intros name pid [[= <- <-]|Hin]; [left; reflexivity|].
      right. apply in_or_app. right. eauto.
Qed.

(* --------------------------------------------------------------------- *)
(** *** [cleanup], twice *)

(** C2, as stated, fails: after two calls of [cleanup] in succession,
    both of which return, the worker map still holds both workers;
    [cleanup] empties nothing.  Nor is the second call without effect:
    the worker that ignored SIGTERM and was force-killed by the first
    call is still shutting down, and the second call sends it SIGTERM
    again. *)
Lemma cleanup_twice_keeps_the_workers :
  fst (cleanup world_two_workers) = Ret tt /\
  fst (cleanup (snd (cleanup world_two_workers))) = Ret tt /\
  worker_processes (snd (cleanup (snd (cleanup world_two_workers))))
    = worker_processes world_two_workers /\
  worker_processes (snd (cleanup (snd (cleanup world_two_workers)))) <> [] /\
  new_events (snd (cleanup world_two_workers))
             (snd (cleanup (snd (cleanup world_two_workers))))
    = [ELog LogCleaningUp;
       ECall 0 MTerminate; ECall 0 (MWait 5);
       ECall 1 MTerminate; EKill 1 SIGTERM; ECall 1 (MWait 5)].
Proof.
  split; [vm_compute; reflexivity|]. split; [vm_compute; reflexivity|].
  split; [vm_compute; reflexivity|].
  split; [vm_compute; discriminate|].
  vm_compute. reflexivity.
Qed.

(** C2, amended: [cleanup] is idempotent on the state of the scaler, not
    on what it does: for every worker set, when a first call has
    returned, a second call in succession returns without raising,
    leaves the worker map as the first call left it -- which is the map
    from before the first call, not an empty one, since [cleanup] removes
    no handle -- and keeps [running] false.  The second call logs and
    calls [terminate()] on every tracked handle once more; a signal is
    delivered then only to a process that has not ended yet (a worker
    force-killed by the first call may still be one). *)
Theorem cleanup_twice (w w1 : World) :
  cleanup w = (Ret tt, w1) ->
  exists w2 evs,
    cleanup w1 = (Ret tt, w2) /\
    worker_processes w1 = worker_processes w /\
    worker_processes w2 = worker_processes w1 /\
    running w1 = false /\
    running w2 = false /\
    trace w2 = trace w1 ++ ELog LogCleaningUp :: evs /\
    (forall name pid, In (name, pid) (worker_processes w1) ->
       In (ECall pid MTerminate) evs) /\
    (forall pid s, In (EKill pid s) evs -> ~ ended pid w1).
Proof.
  intros H1. rewrite cleanup_unfold in H1.
  assert (Hs1 := preserves_for_each _ settles_refl settles_trans
                   (worker_processes w) cleanup_one settles_cleanup_one
                   (set_running false (emit (ELog LogCleaningUp) w))).
  rewrite H1 in Hs1. destruct Hs1 as (_ & Hwp & Hrun & _). simpl in Hwp, Hrun.
  assert (Hset := cleanup_pass_settles _ _ _ H1).
  set (v := set_running false (emit (ELog LogCleaningUp) w1)).
  assert (Hret : fst (for_each (worker_processes w1) cleanup_one v) = Ret tt).
  { apply cleanup_pass_returns. intros worker Hin. rewrite Hwp in Hin.
    assert (H := Hset worker Hin). unfold settled in *. exact H. }
  assert (Hs2 := preserves_for_each _ settles_refl settles_trans
                   (worker_processes w1) cleanup_one settles_cleanup_one v).
  assert (Hl := signals_the_living_cleanup_pass (worker_processes w1) v).
  destruct (for_each (worker_processes w1) cleanup_one v) as [o w2] eqn:H2.
  simpl in Hret, Hs2, Hl. subst o.
  destruct Hs2 as (_ & Hwp2 & Hrun2 & _). simpl in Hwp2, Hrun2.
  destruct (cleanup_pass_calls_terminate _ _ _ H2) as (evs & He & Hcalls).
  destruct Hl as (_ & evs' & He' & Hliving).
  assert (evs' = evs) by (rewrite He in He'; eapply app_inv_head; symmetry; exact He').
  subst evs'.
  exists w2, evs. rewrite cleanup_unfold.
  split; [exact H2|]. split; [exact Hwp|]. split; [exact Hwp2|].
  split; [exact Hrun|]. split; [exact Hrun2|].
  split; [rewrite He; unfold v; simpl; rewrite <- app_assoc; reflexivity|].
  split; [exact Hcalls|].
  intros pid s Hin (p & Hp & Hg). apply (Hliving pid s Hin).
  exists p. split; [exact Hp|exact Hg].
Qed.

Lemma cleanup_twice_witness :
  cleanup world_two_workers = (Ret tt, snd (cleanup world_two_workers)) /\
  exists w2 evs,
    cleanup (snd (cleanup world_two_workers)) = (Ret tt, w2) /\
    worker_processes (snd (cleanup world_two_workers))
      = worker_processes world_two_workers /\
    worker_processes w2 = worker_processes (snd (cleanup world_two_workers)) /\
    running (snd (cleanup world_two_workers)) = false /\
    running w2 = false /\
    trace w2 = trace (snd (cleanup world_two_workers)) ++ ELog LogCleaningUp :: evs /\
    (forall name pid, In (name, pid) (worker_processes (snd (cleanup world_two_workers))) ->
       In (ECall pid MTerminate) evs) /\
    (forall pid s, In (EKill pid s) evs -> ~ ended pid (snd (cleanup world_two_workers))).
Proof.
  assert (H : cleanup world_two_workers = (Ret tt, snd (cleanup world_two_workers)))
    by (vm_compute; reflexivity).
  split; [exact H|].
  exact (cleanup_twice world_two_workers (snd (cleanup world_two_workers)) H).
Defined.

(* --------------------------------------------------------------------- *)
(** *** Processes on their way out *)

Lemma keeps_winding_down_refl (w : World) : keeps_winding_down w w.
Proof. intros pid H. exact H. Qed.

Lemma keeps_winding_down_trans (a b c : World) :
  keeps_winding_down a b -> keeps_winding_down b c -> keeps_winding_down a c.
Proof. intros H1 H2 pid H. auto. Qed.

Lemma keeps_winding_down_procs (w w' : World) :
  procs w' = procs w -> keeps_winding_down w w'.
Proof. intros H pid (p & Hp & Hs). exists p. rewrite H. auto. Qed.

Lemma winding_down_set_proc (pid : nat) (p p' : Popen) (w : World) :
  procs w !! pid = Some p ->
  (pstate p <> Alive -> pstate p' <> Alive) ->
  keeps_winding_down w (set_proc pid p' w).
Proof.
  intros Hp Hk q (p0 & Hp0 & Hs0). unfold winding_down. simpl.
  destruct (Nat.eq_dec q pid) as [->|Hne].
  - exists p'. rewrite list_lookup_insert_eq by (eapply lookup_lt_Some; exact Hp).
    split; [reflexivity|]. apply Hk. congruence.
  - exists p0. rewrite list_lookup_insert_ne by congruence. auto.
Qed.

Lemma poll_not_alive (t : Z) (p : Popen) : pstate p <> Alive -> pstate (poll t p) <> Alive.
Proof.
  unfold poll. destruct (pstate p) eqn:E; intros H; try congruence.
  destruct (_ <=? _); simpl; congruence.
Qed.

Lemma deliver_not_alive (t : Z) (s : Signal) (p : Popen) :
  pstate p <> Alive -> pstate (deliver t s p) <> Alive.
Proof.
  unfold deliver. destruct s, (pstate p) eqn:E; intros H; try congruence.
  destruct (_ <=? _); simpl; congruence.
Qed.

Lemma keeps_winding_down_send_signal (pid : nat) (s : Signal) :
  preserves keeps_winding_down (send_signal pid s).
Proof.
  intros w. unfold send_signal.
  destruct (procs w !! pid) as [p|] eqn:Hp; [|apply keeps_winding_down_refl].
  cbv zeta. set (p1 := poll (clock w) p).
  assert (H1 : keeps_winding_down w (set_proc pid p1 w))
    by (eapply winding_down_set_proc; [exact Hp|apply poll_not_alive]).
  assert (H2 : keeps_winding_down w
                 (emit (EKill pid s)
                    (set_proc pid (deliver (clock w) s p1) (set_proc pid p1 w)))).
  { eapply keeps_winding_down_trans; [exact H1|].
    eapply keeps_winding_down_trans; [|apply keeps_winding_down_procs; reflexivity].
    eapply winding_down_set_proc.
    - apply lookup_set_proc_eq with (q := p). exact Hp.
    - apply deliver_not_alive. }
  destruct (pstate p1); try exact H1; destruct (os_denied p1); assumption.
Qed.

Lemma keeps_winding_down_wait_for (pid : nat) (timeout : Z) :
  preserves keeps_winding_down (wait_for pid timeout).
Proof.
  intros w. unfold wait_for.
  destruct (procs w !! pid) as [p|] eqn:Hp; [|apply keeps_winding_down_refl].
  destruct (pstate p); simpl; try (apply keeps_winding_down_procs; reflexivity).
  destruct (_ <=? _); simpl; [|apply keeps_winding_down_procs; reflexivity].
  eapply keeps_winding_down_trans; [|apply keeps_winding_down_procs; reflexivity].
  eapply winding_down_set_proc; [exact Hp|]. simpl. congruence.
Qed.

Lemma keeps_winding_down_emit (e : Event) : preserves keeps_winding_down (modify (emit e)).
Proof. intros w. apply keeps_winding_down_procs. reflexivity. Qed.

Lemma keeps_winding_down_terminate (pid : nat) :
  preserves keeps_winding_down (terminate pid).
Proof.
  apply (preserves_bind _ keeps_winding_down_trans);
    [apply keeps_winding_down_emit|intros _; apply keeps_winding_down_send_signal].
Qed.

Lemma keeps_winding_down_kill (pid : nat) : preserves keeps_winding_down (kill pid).
Proof.
  apply (preserves_bind _ keeps_winding_down_trans);
    [apply keeps_winding_down_emit|intros _; apply keeps_winding_down_send_signal].
Qed.

Lemma keeps_winding_down_wait (pid : nat) (timeout : Z) :
  preserves keeps_winding_down (wait pid timeout).
Proof.
  apply (preserves_bind _ keeps_winding_down_trans);
    [apply keeps_winding_down_emit|intros _; apply keeps_winding_down_wait_for].
Qed.

(** A [wait] that returns has reaped the process. *)
Lemma wait_ret_winding_down (pid : nat) (timeout c : Z) (w w' : World) :
  wait pid timeout w = (Ret c, w') -> winding_down pid w'.
Proof.
  unfold wait, bind, modify, wait_for, winding_down. simpl.
  destruct (procs w !! pid) as [p|] eqn:Hp; [|discriminate].
  destruct (pstate p) as [|t c0|c0] eqn:Hs.
  - discriminate.
  - destruct (t <=? clock w + timeout * usec); [|discriminate].
    intros [= <- <-]. simpl. eexists.
    rewrite list_lookup_insert_eq by (eapply lookup_lt_Some; exact Hp).
    split; [reflexivity|]. simpl. congruence.
  - intros [= <- <-]. simpl. exists p. split; [exact Hp|]. congruence.
Qed.

(** A [kill] that returns has found the process reaped or has delivered
    SIGKILL to it; the process need not have ended by then. *)
Lemma kill_ret_winding_down (pid : nat) (w w' : World) :
  kill pid w = (Ret tt, w') -> winding_down pid w'.
Proof.
  unfold kill, bind, modify, send_signal, winding_down. simpl.
  destruct (procs w !! pid) as [p|] eqn:Hp; [|discriminate].
  assert (Hlt : (pid < length (procs w))%nat) by (eapply lookup_lt_Some; exact Hp).
  set (p1 := poll (clock w) p).
  destruct (pstate p1) eqn:Hs.
  - destruct (os_denied p1); [discriminate|]. intros [= <-]. simpl. eexists.
    rewrite list_lookup_insert_eq by (rewrite ?length_insert; exact Hlt).
    split; [reflexivity|]. simpl. congruence.
  - destruct (os_denied p1); [discriminate|]. intros [= <-]. simpl. eexists.
    rewrite list_lookup_insert_eq by (rewrite ?length_insert; exact Hlt).
    split; [reflexivity|]. destruct (_ <=? _); simpl; congruence.
  - intros [= <-]. simpl. eexists.
    rewrite list_lookup_insert_eq by (rewrite ?length_insert; exact Hlt).
    split; [reflexivity|]. congruence.
Qed.

(** Stopping the worker at the head of the map. *)
Lemma terminate_one_head (name : string) (pid : nat) (rest : Dict) (w : World) :
  worker_processes w = (name, pid) :: rest ->
  signalable w (name, pid) = true ->
  exists w',
    terminate_one (name, pid) w = (Ret tt, w') /\
    worker_processes w' = rest /\
    winding_down pid w' /\
    clock w <= clock w' <= clock w + 5 * usec /\
    keeps_winding_down w w' /\
    same_table w w'.
Proof.
  intros Hwp Hsig.
  assert (Ht := terminate_goes_through name pid w Hsig).
  assert (Hst := settles_terminate pid w).
  assert (Hdt := keeps_winding_down_terminate pid w).
  assert (Htt := same_table_terminate pid w).
  assert (Hct := clock_terminate pid w).
  unfold terminate_one, bind at 1.
  destruct (terminate pid w) as [o1 w1]. simpl in Ht, Hst, Hdt, Htt, Hct. subst o1.
  destruct Hst as (_ & Hwp1 & _ & _).
  assert (Hsig1 := Htt _ Hsig).
  assert (Hw := wait_returns_or_times_out name pid 5 w1 Hsig1).
  assert (Hsw := settles_wait pid 5 ltac:(lia) w1).
  assert (Hdw := keeps_winding_down_wait pid 5 w1).
  assert (Htw := same_table_wait pid 5 w1).
  assert (Hcw := clock_wait pid 5 w1 ltac:(lia)).
  unfold bind at 1, try_except, bind at 1.
  destruct (wait pid 5 w1) as [o2 w2] eqn:Ew. simpl in Hw, Hsw, Hdw, Htw, Hcw.
  destruct Hsw as (_ & Hwp2 & _ & _).
  destruct Hw as [[c ->]| ->].
  - unfold ret, dict_delete. rewrite Hwp2, Hwp1, Hwp, dict_del_head.
    eexists. split; [reflexivity|]. simpl.
    split; [reflexivity|].
    split. { destruct (wait_ret_winding_down pid 5 c w1 w2 Ew) as (p & Hp & Hg).
             exists p. auto. }
    split; [lia|].
    split. { intros q Hq. destruct (Hdw q (Hdt q Hq)) as (p & Hp & Hg). exists p. auto. }
    intros worker Hs. apply (same_table_procs w2); [reflexivity|]. auto.
  - assert (Hsig2 := Htw _ Hsig1).
    assert (Hk := kill_goes_through name pid w2 Hsig2).
    assert (Hsk := settles_kill pid w2).
    assert (Hdk := keeps_winding_down_kill pid w2).
    assert (Htk := same_table_kill pid w2).
    assert (Hck := clock_kill pid w2).
    destruct (kill pid w2) as [o3 w3] eqn:Ek. simpl in Hk, Hsk, Hdk, Htk, Hck. subst o3.
    destruct Hsk as (_ & Hwp3 & _ & _).
    unfold dict_delete. rewrite Hwp3, Hwp2, Hwp1, Hwp, dict_del_head.
    eexists. split; [reflexivity|]. simpl.
    split; [reflexivity|].
    split. { destruct (kill_ret_winding_down pid w2 w3 Ek) as (p & Hp & Hg).
             exists p. auto. }
    split; [lia|].
    split. { intros q Hq. destruct (Hdk q (Hdw q (Hdt q Hq))) as (p & Hp & Hg).
             exists p. auto. }
    intros worker Hs. apply (same_table_procs w3); [reflexivity|]. auto.
Qed.

(** The loop of [scale_down] over the first workers of the map. *)
Lemma scale_down_loop (todo rest : Dict) (w : World) :
  worker_processes w = todo ++ rest ->
  forallb (signalable w) todo = true ->
  exists w',
    for_each todo terminate_one w = (Ret tt, w') /\
    worker_processes w' = rest /\
    (forall name pid, In (name, pid) todo -> winding_down pid w') /\
    clock w <= clock w' <= clock w + 5 * usec * Z.of_nat (length todo) /\
    keeps_winding_down w w'.
Proof.
  revert w. induction todo as [|[name pid] todo IH]; intros w Hwp Hsig.
  - exists w. simpl. split; [reflexivity|]. split; [exact Hwp|].
    split; [intros ? ? []|]. split; [lia|apply keeps_winding_down_refl].
  - simpl in Hsig. apply andb_prop in Hsig as [Hs Hrest].
    destruct (terminate_one_head name pid (todo ++ rest) w Hwp Hs)
      as (w1 & H1 & Hwp1 & He1 & Hc1 & Hk1 & Ht1).
    destruct (IH w1 Hwp1) as (w' & H2 & Hwp' & He' & Hc' & Hk').
    { apply forallb_forall. intros worker Hin. apply Ht1.
      rewrite forallb_forall in Hrest. auto. }
    exists w'. cbn [for_each]. unfold bind. rewrite H1.
    split; [exact H2|]. split; [exact Hwp'|].
    split. { intros n q [[= <- <-]|Hin]; [auto|eauto]. }
    split; [|eapply keeps_winding_down_trans; eassumption].
    cbn [length]. unfold usec in *. lia.
Qed.

(** X11: [scale_down(count)] with [count >= 0] stops the workers that
    come first in the worker map, the oldest ones: when no signal is
    refused it returns with exactly the first [count] entries removed
    (all of them when the map is shorter), [last_scale_time] set to the
    time it finished, and after at most five seconds for each removed
    worker.  Every removed worker's process has been reaped or has had a
    signal that ends it delivered; it need not have ended yet. *)
Theorem scale_down_stops_the_oldest (count : Z) (w : World) :
  0 <= count ->
  forallb (signalable w) (take (Z.to_nat count) (worker_processes w)) = true ->
  exists w',
    scale_down count w = (Ret tt, w') /\
    worker_processes w' = drop (Z.to_nat count) (worker_processes w) /\
    (forall name pid,
        In (name, pid) (take (Z.to_nat count) (worker_processes w)) ->
        winding_down pid w') /\
    last_scale_time w' = clock w' /\
    clock w <= clock w'
      <= clock w + 5 * usec * Z.of_nat (length (take (Z.to_nat count) (worker_processes w))).
Proof.
  intros Hc Hsig.
  destruct (scale_down_loop (take (Z.to_nat count) (worker_processes w))
              (drop (Z.to_nat count) (worker_processes w))
              (emit (ELog (LogScalingDown count)) w))
    as (w1 & Hloop & Hwp & Hend & Hclock & _).
  { simpl. symmetry. apply take_drop. }
  { exact Hsig. }
  simpl in Hclock.
  exists (set_last_scale_time (clock w1) w1).
  unfold scale_down, bind at 1, log, modify, try_except, bind at 1, gets.
  unfold slice_to. destruct (Z.leb_spec 0 count) as [_|Hneg]; [|lia].
  cbn [worker_processes emit]. unfold bind at 1. rewrite Hloop.
  unfold bind, now, gets, modify.
  split; [reflexivity|]. simpl.
  split; [exact Hwp|]. split; [|split; [reflexivity|exact Hclock]].
  intros name pid Hin. destruct (Hend name pid Hin) as (p & Hp & Hg). exists p. auto.
Qed.

Lemma scale_down_stops_the_oldest_witness :
  0 <= 2 /\
  forallb (signalable world_two_workers)
    (take (Z.to_nat 2) (worker_processes world_two_workers)) = true /\
  exists w',
    scale_down 2 world_two_workers = (Ret tt, w') /\
    worker_processes w' = drop (Z.to_nat 2) (worker_processes world_two_workers) /\
    (forall name pid,
        In (name, pid) (take (Z.to_nat 2) (worker_processes world_two_workers)) ->
        winding_down pid w') /\
    last_scale_time w' = clock w' /\
    clock world_two_workers <= clock w'
      <= clock world_two_workers
         + 5 * usec
           * Z.of_nat (length (take (Z.to_nat 2) (worker_processes world_two_workers))).
Proof.
  assert (H1 : 0 <= 2) by lia.
  assert (H2 : forallb (signalable world_two_workers)
                 (take (Z.to_nat 2) (worker_processes world_two_workers)) = true)
    by reflexivity.
  split; [exact H1|]. split; [exact H2|].
  exact (scale_down_stops_the_oldest 2 world_two_workers H1 H2).
Defined.
